(** * bv05-forecast: the forecast transform and its web endpoint

    A shallow embedding of [weather1.py] (fetch, transform) and
    [application.py] (the [/api/weather] route), with the properties the
    specification states about them.

    Python values decoded from JSON are the inductive [json]; Python
    dictionaries read by key are [gmap string json]; the dictionary
    [processed], whose insertion order becomes the column order of the
    table, is an association list.  Logging is a trace of records, and an
    exception that leaves a function is an explicit outcome.

    The transform is embedded twice: on decoded values, where the
    properties of its result are proved, and on a store of objects with
    references, where [processed] shares the lists of the payload and the
    property that the payload is left as it was is proved.  The second
    embedding is proved to log, raise and return what the first does.

    The last part embeds the rest of [weather1.py], the logging setup,
    [save_output_files] and the script, and proves more of what the code
    does on the shapes of a response, on the console, on the disk and at
    the endpoint. *)

From Stdlib Require Import ZArith SpecFloat Ascii String.
From stdpp Require Import base option strings list gmap.

Local Open Scope string_scope.
Local Open Scope list_scope.
Local Open Scope nat_scope.

#[local] Set Warnings "-register-all".

(** ** Decoded JSON values *)

(** What [response.json()] can return: [None], [bool], [int], [float],
    [str], [list] and [dict] with string keys. *)
Inductive json : Type :=
| JNull
| JBool (b : bool)
| JInt (z : Z)
| JFloat (f : spec_float)
| JStr (s : string)
| JList (l : list json)
| JDict (m : gmap string json).

Inductive pytype := NoneType | Bool | Int | Float | Str | List | Dict.

(** [type(v)] *)
Definition type (v : json) : pytype :=
  match v with
  | JNull => NoneType
  | JBool _ => Bool
  | JInt _ => Int
  | JFloat _ => Float
  | JStr _ => Str
  | JList _ => List
  | JDict _ => Dict
  end.

(** [isinstance(v, dict)], [isinstance(v, list)] *)
Definition isinstance_dict (v : json) : bool :=
  match v with JDict _ => true | _ => false end.

Definition isinstance_list (v : json) : bool :=
  match v with JList _ => true | _ => false end.

(** A byte that starts a code point of a UTF-8 string: every byte but the
    continuation bytes [10xxxxxx]. *)
Definition starts_code_point (a : ascii) : bool :=
  match a with
  | Ascii _ _ _ _ _ _ false true => false
  | _ => true
  end.

(** [len(s)] of a [str] held as its UTF-8 bytes: the number of code points. *)
Fixpoint str_len (s : string) : nat :=
  match s with
  | EmptyString => 0
  | String a s' => (if starts_code_point a then 1 else 0) + str_len s'
  end.

(** [s[:n]] of a [str]: the bytes of its first [n] code points. *)
Fixpoint str_prefix (n : nat) (s : string) : string :=
  match s with
  | EmptyString => EmptyString
  | String a s' =>
      if starts_code_point a then
        match n with
        | 0 => EmptyString
        | S n' => String a (str_prefix n' s')
        end
      else String a (str_prefix n s')
  end.

(** Truth value of a decoded value, as [if v:] tests it. *)
Definition truthy (v : json) : bool :=
  match v with
  | JNull => false
  | JBool b => b
  | JInt z => negb (z =? 0)%Z
  | JFloat (S754_zero _) => false
  | JFloat _ => true
  | JStr s => negb (String.eqb s "")
  | JList l => match l with [] => false | _ => true end
  | JDict m => negb (size m =? 0)
  end.

(** ** Exceptions, logging and the monad of a call *)

Inductive exn :=
| AttributeError
| TypeError
| KeyError
| IndexError
| ValueError
| RecursionError.

Inductive level := DEBUG | INFO | WARNING | ERROR.

(** One constructor per logging call of the two modules, with the values
    its message interpolates. *)
Inductive message :=
| Fetching (url : string)
| Fetched
| FetchError
| DecodeError
| ResponseText
| NoResponseText
| RawType (t : pytype)
| NotADictionary (t : pytype)
| ReturnedAList
| MissingDailyKeys
| ContentOfData (data : json)
| KeysInDaily (daily : gmap string json)
| FoundUnits (units : json)
| MissingTime
| ProcessingDays (n : nat)
| FirstDates (head : json)
| VariableNotFound (var : string)
| LengthMismatch (var : string)
| ProcessingVariable (var name : string)
| FirstValues (name : string) (head : list json)
| FinishedExtraction
| FrameCreated
| FrameShape (rows cols : nat)
| FrameColumns (names : list string)
| FrameHead (rows : nat)
| FrameError (e : exn)
| Executing
| FetchFailed.

Definition record : Type := level * message.

(** A call appends to the log and either returns or raises. *)
Definition M (A : Type) : Type := list record * (exn + A).

#[export] Instance M_ret : MRet M := λ A a, ([], inr a).

#[export] Instance M_bind : MBind M := λ A B f c,
  match c with
  | (l, inl e) => (l, inl e)
  | (l, inr a) => let '(l', r) := f a in (l ++ l', r)
  end.

Definition raise {A} (e : exn) : M A := ([], inl e).

Definition log (lv : level) (m : message) : M unit := ([(lv, m)], inr tt).

(** [try: body except Exception as e: handler e] *)
Definition try_except {A} (body : M A) (handler : exn → M A) : M A :=
  match body with
  | (l, inl e) => let '(l', r) := handler e in (l ++ l', r)
  | (l, inr a) => (l, inr a)
  end.

Definition logged {A} (c : M A) : list record := fst c.
Definition result {A} (c : M A) : exn + A := snd c.

(** [for x in xs: s = body s x], in the monad. *)
Fixpoint for_each {A S} (xs : list A) (body : S → A → M S) (s : S) : M S :=
  match xs with
  | [] => mret s
  | x :: xs' => s' ← body s x; for_each xs' body s'
  end.

(** ** The part of pandas and of Flask that the two modules call

    pandas and Flask are not part of the repository.  A [Series] is the
    list of its cells.  [pd.to_numeric] works value by value.
    [pd.to_datetime] works on the column: the values it reads as missing
    become [NaT] and do not make it raise, the format of the dates is
    inferred once, from the first string that is not missing, and every
    other value is parsed in that format, or on its own when no format
    could be inferred.  What these functions make of a single value, what
    [jsonify] refuses, and what [str()] prints for a value that is not a
    [str], are the fields of the class [Runtime], so every property below
    holds for whatever the libraries do there. *)

Inductive cell (number datetime : Type) : Type :=
| Obj (v : json)
| Num (x : option number)
| Date (d : datetime)
| NaT.

Arguments Obj {number datetime} v.
Arguments Num {number datetime} x.
Arguments Date {number datetime} d.
Arguments NaT {number datetime}.

Class Runtime := {
  (** values of a numeric column; a numeric cell is [Some x], or [None]
      for the missing-value marker [NaN] *)
  number : Type;
  (** calendar dates: the values of a [datetime64] column but [NaT] *)
  datetime : Type;
  (** formats of date strings *)
  date_format : Type;
  (** [pd.to_numeric] on one cell: [None] when the value cannot be
      coerced *)
  coerce_numeric : cell number datetime → option number;
  (** the values that [pd.to_datetime] reads as missing, besides [None]
      and the empty string *)
  missing_date : json → bool;
  (** the format that [pd.to_datetime] infers from the first string of a
      column that is not missing: [None] when it infers none *)
  guess_format : string → option date_format;
  (** [pd.to_datetime] on one value that is not missing, in the format of
      its column, or on its own when the column has none: [None] when
      parsing raises *)
  parse_datetime :
    option date_format → cell number datetime → option datetime;
  (** the exception that [jsonify] raises on a row, if it raises *)
  jsonify_raises : list (string * cell number datetime) → option exn;
  (** [str(v)] *)
  py_str : json → string
}.

(** A small runtime to evaluate the model on concrete payloads: integers
    are the only numbers, a date is a string of digits [YYYY-MM-DD] or
    [MM/DD/YYYY], the two formats there are, and [jsonify] refuses the
    rows that hold a [NaT]. *)
Definition is_digit (a : ascii) : bool :=
  let n := nat_of_ascii a in (48 <=? n) && (n <=? 57).

Definition is_iso_date (s : string) : bool :=
  match list_ascii_of_string s with
  | [y1; y2; y3; y4; d1; m1; m2; d2; a1; a2] =>
      forallb is_digit [y1; y2; y3; y4; m1; m2; a1; a2]
      && Ascii.eqb d1 "-" && Ascii.eqb d2 "-"
  | _ => false
  end.

Definition sample_coerce_numeric (c : cell Z string) : option Z :=
  match c with
  | Obj (JInt z) => Some z
  | Obj (JBool b) => Some (if b then 1 else 0)%Z
  | _ => None
  end.

Definition is_us_date (s : string) : bool :=
  match list_ascii_of_string s with
  | [m1; m2; d1; a1; a2; d2; y1; y2; y3; y4] =>
      forallb is_digit [y1; y2; y3; y4; m1; m2; a1; a2]
      && Ascii.eqb d1 "/" && Ascii.eqb d2 "/"
  | _ => false
  end.

Inductive sample_format := YearFirst | MonthFirst.

Definition sample_guess_format (s : string) : option sample_format :=
  if is_iso_date s then Some YearFirst
  else if is_us_date s then Some MonthFirst
  else None.

Definition sample_parse_datetime (fmt : option sample_format)
    (c : cell Z string) : option string :=
  match fmt, c with
  | Some YearFirst, Obj (JStr s) => if is_iso_date s then Some s else None
  | Some MonthFirst, Obj (JStr s) => if is_us_date s then Some s else None
  | _, _ => None
  end.

Definition sample_jsonify_raises (row : list (string * cell Z string))
  : option exn :=
  if existsb (λ kv, match kv.2 with NaT => true | _ => false end) row
  then Some ValueError else None.

Definition sample_py_str (v : json) : string :=
  match v with
  | JNull => "None"
  | JBool true => "True"
  | JBool false => "False"
  | _ => "?"
  end.

#[export] Instance sample_runtime : Runtime := {|
  number := Z;
  datetime := string;
  date_format := sample_format;
  coerce_numeric := sample_coerce_numeric;
  missing_date := λ _, false;
  guess_format := sample_guess_format;
  parse_datetime := sample_parse_datetime;
  jsonify_raises := sample_jsonify_raises;
  py_str := sample_py_str
|}.

(** A [Series]. *)
Abbreviation series := (list (cell number datetime)).

Section pandas.
Context `{R : Runtime}.

(** A [DataFrame]: the length of its index and its columns in order. *)
Record DataFrame := {
  nrows : nat;
  columns : list (string * series)
}.

(** What the constructor takes as a column: a list, or a scalar that it
    repeats along the index. *)
Inductive column_data :=
| Array (l : list json)
| Scalar (v : json).

Definition array_length (c : column_data) : option nat :=
  match c with
  | Array l => Some (length l)
  | Scalar _ => None
  end.

Definition broadcast (n : nat) (c : column_data) : series :=
  match c with
  | Array l => Obj <$> l
  | Scalar v => replicate n (Obj v)
  end.

(** [pd.DataFrame(d)] for a dictionary [d] of lists and scalars: the
    lists must have one length, which is the number of rows; with no
    list at all there is no index and the constructor raises. *)
Definition pd_DataFrame (d : list (string * column_data)) : M DataFrame :=
  match omap (λ kv, array_length kv.2) d with
  | [] => raise ValueError
  | n :: ns =>
      if forallb (Nat.eqb n) ns then
        mret {| nrows := n; columns := prod_map id (broadcast n) <$> d |}
      else raise ValueError
  end.

(** [len(df)] *)
Definition df_len (df : DataFrame) : nat := nrows df.

Fixpoint assoc {A} (k : string) (d : list (string * A)) : option A :=
  match d with
  | [] => None
  | (k', v) :: d' => if String.eqb k' k then Some v else assoc k d'
  end.

(** [d[k] = v] on an insertion-ordered dictionary: a key already there
    keeps its place. *)
Fixpoint assoc_set {A} (k : string) (v : A) (d : list (string * A))
  : list (string * A) :=
  match d with
  | [] => [(k, v)]
  | (k', v') :: d' =>
      if String.eqb k' k then (k', v) :: d' else (k', v') :: assoc_set k v d'
  end.

(** [df[name]] *)
Definition df_getitem (df : DataFrame) (name : string) : M series :=
  match assoc name (columns df) with
  | Some s => mret s
  | None => raise KeyError
  end.

(** [df[name] = s] *)
Definition df_setitem (df : DataFrame) (name : string) (s : series)
  : DataFrame :=
  {| nrows := nrows df; columns := assoc_set name s (columns df) |}.

(** The [errors] argument of [pd.to_numeric]. *)
Inductive errors_arg := errors_raise | errors_coerce | errors_ignore.

(** What [pd.to_numeric] makes of a cell when it does not fail on it:
    [None] is missing and a numeric cell is kept; the outer [None] is a
    value that cannot be coerced. *)
Definition to_numeric_strict (c : cell number datetime)
  : option (option number) :=
  match c with
  | Obj JNull => Some None
  | Num x => Some x
  | _ => Some <$> coerce_numeric c
  end.

(** The cell under [errors='coerce']: missing where it cannot be
    coerced. *)
Definition to_numeric_cell (c : cell number datetime) : option number :=
  match c with
  | Obj JNull => None
  | Num x => x
  | _ => coerce_numeric c
  end.

(** [pd.to_numeric(s, errors=..)]: value by value; a value that cannot
    be coerced makes the call raise under ['raise'], is the missing value
    under ['coerce'], and makes the call return its argument under
    ['ignore']. *)
Definition pd_to_numeric (s : series) (errors : errors_arg) : M series :=
  match errors with
  | errors_coerce => mret ((λ c, Num (to_numeric_cell c)) <$> s)
  | errors_raise =>
      match mapM to_numeric_strict s with
      | Some xs => mret (Num <$> xs)
      | None => raise ValueError
      end
  | errors_ignore =>
      match mapM to_numeric_strict s with
      | Some xs => mret (Num <$> xs)
      | None => mret s
      end
  end.

(** A value that [pd.to_datetime] reads as missing. *)
Definition is_missing_date (c : cell number datetime) : bool :=
  match c with
  | Obj JNull => true
  | Obj (JStr EmptyString) => true
  | Obj v => missing_date v
  | Num None => true
  | NaT => true
  | _ => false
  end.

(** The first value of a column that is not missing. *)
Fixpoint first_non_null (s : series) : option (cell number datetime) :=
  match s with
  | [] => None
  | c :: s' => if is_missing_date c then first_non_null s' else Some c
  end.

(** The format of a column: inferred from its first value that is not
    missing, when that value is a string. *)
Definition column_format (s : series) : option date_format :=
  match first_non_null s with
  | Some (Obj (JStr x)) => guess_format x
  | _ => None
  end.

(** One value of a column of format [fmt]. *)
Definition convert_cell (fmt : option date_format)
    (c : cell number datetime) : option (cell number datetime) :=
  match c with
  | Date d => Some (Date d)
  | _ => if is_missing_date c then Some NaT
         else Date <$> parse_datetime fmt c
  end.

(** [pd.to_datetime(s)]: one value that does not parse in the format of
    the column makes the whole call raise. *)
Definition pd_to_datetime (s : series) : M series :=
  match mapM (convert_cell (column_format s)) s with
  | Some ds => mret ds
  | None => raise ValueError
  end.

(** The calendar date that [pd.to_datetime] makes of the column of one
    value, when it makes one. *)
Definition to_datetime_cell (c : cell number datetime) : option datetime :=
  match convert_cell (column_format [c]) c with
  | Some (Date d) => Some d
  | _ => None
  end.

(** The cells of row 0, keyed by column name. *)
Definition iloc0 (df : DataFrame) : list (string * cell number datetime) :=
  omap (λ kv, pair kv.1 <$> head kv.2) (columns df).

(** [df.iloc[0].to_dict()]: out of bounds on an empty frame. *)
Definition first_row (df : DataFrame)
  : M (list (string * cell number datetime)) :=
  match nrows df with
  | 0 => raise IndexError
  | S _ => mret (iloc0 df)
  end.

End pandas.

(** ** weather1.py *)

Definition FORECAST_API_URL : string :=
  "https://api.open-meteo.com/v1/forecast?latitude=43.7064&longitude=-79.3986&daily=temperature_2m_mean,apparent_temperature_mean,relative_humidity_2m_mean,wind_speed_10m_mean,cloud_cover_mean,dew_point_2m_mean,precipitation_sum,shortwave_radiation_sum&timezone=America%2FNew_York&forecast_days=16".

Definition VARIABLES : list string := [
  "temperature_2m_mean";
  "relative_humidity_2m_mean";
  "wind_speed_10m_mean";
  "cloud_cover_mean";
  "precipitation_sum";
  "shortwave_radiation_sum";
  "apparent_temperature_mean";
  "dew_point_2m_mean"
].

(** What the HTTP exchange of [fetch_forecast_weather] comes to:
    [requests.get] or [raise_for_status] raises a [RequestException]; or
    there is a response and [response.json()] raises a
    [json.JSONDecodeError] that is a [RequestException] too, as the one of
    [requests] is, or one that is not, or an exception of another class,
    which no handler of lines 63-66 catches; or the body decodes to a
    value. *)
Inductive exchange :=
| RequestException
| InvalidJSONError
| JSONDecodeError (text_readable : bool)
| Uncaught (e : exn)
| Decoded (payload : json).

Section weather1.
Context `{R : Runtime}.

(** [fetch_forecast_weather()], lines 54-72 *)
Definition fetch_forecast_weather (x : exchange) : M (option json) :=
  log INFO (Fetching FORECAST_API_URL);;
  match x with
  | RequestException =>
      log ERROR FetchError;;
      mret None
  | InvalidJSONError =>
      log INFO Fetched;;
      log ERROR FetchError;;
      mret None
  | JSONDecodeError text_readable =>
      log INFO Fetched;;
      log ERROR DecodeError;;
      (if text_readable then log ERROR ResponseText
       else log ERROR NoResponseText);;
      mret None
  | Uncaught e =>
      log INFO Fetched;;
      raise e
  | Decoded payload =>
      log INFO Fetched;;
      mret (Some payload)
  end.

(** [f"{var} ({unit_str})"] *)
Definition format_unit (unit_str : json) : string :=
  match unit_str with
  | JStr s => s
  | v => py_str v
  end.

(** Lines 110-114: the column name of a variable, [unit_str] being what
    [daily_units.get(var)] returned. *)
Definition new_col_name (var : string) (unit_str : option json) : string :=
  match unit_str with
  | Some u =>
      if truthy u then var +:+ " (" +:+ format_unit u +:+ ")" else var
  | None => var
  end.

(** [daily_units.get(var)]: only a [dict] has [get]. *)
Definition units_get (daily_units : json) (var : string)
  : M (option json) :=
  match daily_units with
  | JDict m => mret (m !! var)
  | _ => raise AttributeError
  end.

(** The dictionary [processed] and the list [new_column_names]. *)
Definition extraction : Type :=
  list (string * column_data) * list string.

(** The body of the loop of lines 108-127, [n] being [len(dates)]. *)
Definition extract_variable (daily_data : gmap string json)
    (daily_units : json) (n : nat) (st : extraction) (var : string)
  : M extraction :=
  let '(processed, new_column_names) := st in
  unit_str ← units_get daily_units var;
  let name := new_col_name var unit_str in
  let new_column_names := new_column_names ++ [name] in
  match daily_data !! var with
  | None =>
      log WARNING (VariableNotFound var);;
      mret (assoc_set name (Array (replicate n JNull)) processed,
            new_column_names)
  | Some (JList l) =>
      if negb (length l =? n) then
        log ERROR (LengthMismatch var);;
        mret (assoc_set name (Array (replicate n JNull)) processed,
              new_column_names)
      else
        log INFO (ProcessingVariable var name);;
        log DEBUG (FirstValues name (take 5 l));;
        mret (assoc_set name (Array l) processed, new_column_names)
  | Some _ =>
      log ERROR (LengthMismatch var);;
      mret (assoc_set name (Array (replicate n JNull)) processed,
            new_column_names)
  end.

(** The loop of lines 135-137 over [new_column_names]. *)
Definition coerce_column (final_df : DataFrame) (col_name : string)
  : M DataFrame :=
  if negb (String.eqb col_name "date") then
    s ← df_getitem final_df col_name;
    s ← pd_to_numeric s errors_coerce;
    mret (df_setitem final_df col_name s)
  else mret final_df.

(** The body of the [try] of lines 132-144. *)
Definition assemble (processed : list (string * column_data))
    (new_column_names : list string) : M (option DataFrame) :=
  final_df ← pd_DataFrame processed;
  final_df ← for_each new_column_names coerce_column final_df;
  s ← df_getitem final_df "date";
  d ← pd_to_datetime s;
  let final_df := df_setitem final_df "date" d in
  log INFO FrameCreated;;
  log DEBUG (FrameShape (nrows final_df) (length (columns final_df)));;
  log DEBUG (FrameColumns (fst <$> columns final_df));;
  log DEBUG (FrameHead (min 5 (nrows final_df)));;
  mret (Some final_df).

(** The handler of lines 145-147. *)
Definition construction_failure (e : exn) : M (option DataFrame) :=
  log ERROR (FrameError e);;
  mret None.

(** Lines 131-147. *)
Definition build_frame (st : extraction) : M (option DataFrame) :=
  let '(processed, new_column_names) := st in
  try_except (assemble processed new_column_names) construction_failure.

(** Lines 104-147, once [dates], its length [n] and its column form are
    known. *)
Definition extract_and_build (daily_data : gmap string json)
    (daily_units : json) (n : nat) (dates : column_data)
  : M (option DataFrame) :=
  st ← for_each VARIABLES (extract_variable daily_data daily_units n)
         ([("date", dates)], ["date"]);
  log INFO FinishedExtraction;;
  build_frame st.

(** [process_weather_data(data)], lines 74-147.  [daily_data.keys()]
    exists for a [dict] only; [len(dates)] for a [list], a [str] and a
    [dict] only; and [dates[:5]] raises on a [dict] ([TypeError], and
    [KeyError] since Python 3.12, where a slice is hashable). *)
Definition process_weather_data (data : json) : M (option DataFrame) :=
  log DEBUG (RawType (type data));;
  match data with
  | JDict d =>
      match d !! "daily", d !! "daily_units" with
      | Some daily_data, Some daily_units =>
          match daily_data with
          | JDict daily =>
              log DEBUG (KeysInDaily daily);;
              log DEBUG (FoundUnits daily_units);;
              match daily !! "time" with
              | None =>
                  log ERROR MissingTime;;
                  mret None
              | Some (JList l) =>
                  log INFO (ProcessingDays (length l));;
                  log DEBUG (FirstDates (JList (take 5 l)));;
                  extract_and_build daily daily_units (length l) (Array l)
              | Some (JStr s) =>
                  log INFO (ProcessingDays (str_len s));;
                  log DEBUG (FirstDates (JStr (str_prefix 5 s)));;
                  extract_and_build daily daily_units (str_len s)
                    (Scalar (JStr s))
              | Some (JDict m) =>
                  log INFO (ProcessingDays (size m));;
                  raise TypeError
              | Some _ => raise TypeError
              end
          | _ => raise AttributeError
          end
      | _, _ =>
          log ERROR MissingDailyKeys;;
          log ERROR (ContentOfData data);;
          mret None
      end
  | _ =>
      log ERROR (NotADictionary (type data));;
      (if isinstance_list data then log ERROR ReturnedAList else mret tt);;
      mret None
  end.

(** [fetch_and_process_forecast()], lines 179-188 *)
Definition fetch_and_process_forecast (x : exchange)
  : M (option DataFrame) :=
  log INFO Executing;;
  weather_json ← fetch_forecast_weather x;
  match weather_json with
  | Some payload =>
      if truthy payload then process_weather_data payload
      else log ERROR FetchFailed;; mret None
  | None => log ERROR FetchFailed;; mret None
  end.

End weather1.

(** ** application.py *)

Section application.
Context `{R : Runtime}.

(** What [jsonify] is given. *)
Inductive body :=
| Row (fields : list (string * cell number datetime))
| Object (fields : list (string * string)).

(** A Flask response: the body and the status code (200 when the view
    returns the body alone). *)
Definition response : Type := body * nat.

(** [jsonify(row)] for the dictionary of a row. *)
Definition jsonify (row : list (string * cell number datetime)) : M body :=
  match jsonify_raises row with
  | Some e => raise e
  | None => mret (Row row)
  end.

(** [weather()], lines 10-15 *)
Definition weather (x : exchange) : M response :=
  df ← fetch_and_process_forecast x;
  match df with
  | Some df =>
      if 0 <? df_len df then
        row ← first_row df;
        b ← jsonify row;
        mret (b, 200)
      else mret (Object [("error", "No data")], 500)
  | None => mret (Object [("error", "No data")], 500)
  end.

End application.

(** ** The logging setup, [weather1.py] lines 32-50 *)

(** [logging.DEBUG], [logging.INFO], [logging.WARNING], [logging.ERROR] *)
Definition levelno (lv : level) : nat :=
  match lv with
  | DEBUG => 10
  | INFO => 20
  | WARNING => 30
  | ERROR => 40
  end.

(** A handler of the root logger, with the level set on it. *)
Record handler := { handler_level : level }.

(** Line 33: the level of the root logger. *)
Definition logger_level : level := DEBUG.

(** Lines 39-40 and 46-47: the handler of the log file and the handler of
    the console. *)
Definition file_handler_fc : handler := {| handler_level := DEBUG |}.

Definition console_handler_fc : handler := {| handler_level := INFO |}.

(** The records of a log that a handler emits: those the logger is enabled
    for and whose level is not below the level of the handler. *)
Definition emitted (h : handler) (l : list record) : list record :=
  List.filter (λ r, (levelno logger_level <=? levelno r.1)
                    && (levelno (handler_level h) <=? levelno r.1)) l.

(** ** Saving the table and the script, [weather1.py] lines 149-176 and
    191-206 *)

Definition OUTPUT_CSV_FILE_FORECAST : string := "forecast_daily_weather.csv".

Definition OUTPUT_JSON_FILE_FORECAST : string :=
  "forecast_daily_weather.json".

(** What [df.to_csv(..)] on line 159, or lines 167-168 together, come to:
    the call returns, raises [IOError], or raises an exception of another
    class. *)
Inductive write_result :=
| Written
| IOError
| OtherError (e : exn).

(** One constructor per logging call of [save_output_files] and of the
    script. *)
Inductive note :=
| AttemptingToSave (directory : string)
| CsvSaved (path : string)
| CsvNotSaved (path : string)
| JsonSaved (path : string)
| JsonNotSaved (path : string)
| JsonUnexpected
| NoFrameToSave
| RunningDirectly
| Rule
| ScriptHalted
| PleaseReplace
| TestFilesSaved (rows cols : nat)
| ScriptFailed
| ScriptFinished.

(** What the script does that can be observed: a record logged by the
    functions above, a record logged by [save_output_files] or by the
    script, a call of [to_csv] with its path, and a run of lines 167-168
    with the path given to [to_json]. *)
Inductive event :=
| Logged (r : record)
| Noted (lv : level) (m : note)
| ToCsv (path : string)
| ToJson (path : string).

Definition IO (A : Type) : Type := list event * (exn + A).

#[export] Instance IO_ret : MRet IO := λ A a, ([], inr a).

#[export] Instance IO_bind : MBind IO := λ A B f c,
  match c with
  | (l, inl e) => (l, inl e)
  | (l, inr a) => let '(l', r) := f a in (l ++ l', r)
  end.

Definition emit (ev : event) : IO unit := ([ev], inr tt).

(** An exception that no handler of the function catches. *)
Definition escape {A} (e : exn) : IO A := ([], inl e).

(** A call of one of the functions above. *)
Definition call {A} (c : M A) : IO A := (Logged <$> c.1, c.2).

Definition events {A} (c : IO A) : list event := fst c.
Definition outcome {A} (c : IO A) : exn + A := snd c.

(** [needle in hay] for two [str]. *)
Fixpoint contains (needle hay : string) : bool :=
  String.prefix needle hay
  || match hay with
     | EmptyString => false
     | String _ hay' => contains needle hay'
     end.

(** Where the script runs: the directory of [weather1.py], which is
    [os.path.dirname(os.path.abspath(__file__))], and [os.path.join]. *)
Class Host := {
  save_directory : string;
  os_path_join : string → string → string
}.

(** A host to evaluate the model on: a fixed directory, and the join of a
    directory without final separator and a relative name. *)
#[export] Instance sample_host : Host := {|
  save_directory := "/srv/forecast";
  os_path_join := λ a b, a +:+ "/" +:+ b
|}.

Section script.
Context `{R : Runtime} `{Ho : Host}.

(** [save_output_files(df, csv_filename, json_filename)], lines 149-176:
    the handler of the CSV block catches [IOError] only, the handlers of
    the JSON block catch every exception. *)
Definition save_output_files (csv json : write_result)
    (df : option DataFrame) (csv_filename json_filename : string)
  : IO unit :=
  match df with
  | Some _ =>
      let csv_full_path := os_path_join save_directory csv_filename in
      let json_full_path := os_path_join save_directory json_filename in
      emit (Noted INFO (AttemptingToSave save_directory));;
      emit (ToCsv csv_full_path);;
      match csv with
      | Written => emit (Noted INFO (CsvSaved csv_full_path))
      | IOError => emit (Noted ERROR (CsvNotSaved csv_full_path))
      | OtherError e => escape e
      end;;
      emit (ToJson json_full_path);;
      match json with
      | Written => emit (Noted INFO (JsonSaved json_full_path))
      | IOError => emit (Noted ERROR (JsonNotSaved json_full_path))
      | OtherError _ => emit (Noted ERROR JsonUnexpected)
      end
  | None => emit (Noted WARNING NoFrameToSave)
  end.

(** The script, lines 191-206. *)
Definition main (x : exchange) (csv json : write_result) : IO unit :=
  emit (Noted INFO RunningDirectly);;
  (if contains "YOUR_TORONTO_ONLY_HISTORICAL_API_URL_GOES_HERE"
        FORECAST_API_URL
   then
     emit (Noted ERROR Rule);;
     emit (Noted ERROR ScriptHalted);;
     emit (Noted ERROR PleaseReplace);;
     emit (Noted ERROR Rule)
   else
     forecast_df ← call (fetch_and_process_forecast x);
     match forecast_df with
     | Some df =>
         save_output_files csv json (Some df) OUTPUT_CSV_FILE_FORECAST
           OUTPUT_JSON_FILE_FORECAST;;
         emit (Noted INFO (TestFilesSaved (nrows df) (length (columns df))))
     | None => emit (Noted ERROR ScriptFailed)
     end);;
  emit (Noted INFO ScriptFinished).

End script.

(** ** The transform on a store of Python objects

    The payload is a graph of objects that the caller still holds when the
    transform returns.  Here a [list] or a [dict] is an object of a store
    and a value refers to it by its location, so that two names for one
    list are one object; a location is an index in the store, and a new
    object goes at its end. *)

Abbreviation loc := nat.

Inductive value :=
| VNone
| VBool (b : bool)
| VInt (z : Z)
| VFloat (f : spec_float)
| VStr (s : string)
| VRef (l : loc).

Inductive object :=
| OList (items : list value)
| ODict (items : list (string * value)).

Abbreviation store := (list object).

(** The decoded value a value stands for, followed through the store to
    the given depth. *)
Fixpoint reify (depth : nat) (σ : store) (v : value) : json :=
  match v with
  | VNone => JNull
  | VBool b => JBool b
  | VInt z => JInt z
  | VFloat f => JFloat f
  | VStr s => JStr s
  | VRef l =>
      match depth with
      | 0 => JNull
      | S depth' =>
          match σ !! l with
          | Some (OList items) => JList (reify depth' σ <$> items)
          | Some (ODict items) =>
              JDict (list_to_map (prod_map id (reify depth' σ) <$> items))
          | None => JNull
          end
      end
  end.

(** A call reads and writes the store, logs, and returns or raises. *)
Definition H (A : Type) : Type := store → store * M A.

#[export] Instance H_ret : MRet H := λ A a σ, (σ, mret a).

#[export] Instance H_bind : MBind H := λ A B f c σ,
  match c σ with
  | (σ', (l, inl e)) => (σ', (l, inl e))
  | (σ', (l, inr a)) => let '(σ'', (l', r)) := f a σ' in (σ'', (l ++ l', r))
  end.

(** A step that leaves the store alone. *)
Definition lift {A} (m : M A) : H A := λ σ, (σ, m).

(** A new object. *)
Definition alloc (o : object) : H loc := λ σ, (σ ++ [o], mret (length σ)).

(** The object a value refers to, if it refers to one. *)
Definition deref (v : value) : H (option object) := λ σ,
  (σ, mret (match v with VRef l => σ !! l | _ => None end)).

(** The decoded value of a value, as a log message or pandas reads it. *)
Definition read (v : value) : H json := λ σ,
  (σ, mret (reify (length σ) σ v)).

(** An object changed in place. *)
Definition write (l : loc) (o : object) : H unit := λ σ,
  (<[l := o]> σ, mret tt).

Definition try_except_in {A} (body : H A) (handler : exn → H A) : H A :=
  λ σ,
    match body σ with
    | (σ', (l, inl e)) =>
        let '(σ'', (l', r)) := handler e σ' in (σ'', (l ++ l', r))
    | (σ', (l, inr a)) => (σ', (l, inr a))
    end.

Fixpoint for_each_in {A} (xs : list A) (body : A → H unit) : H unit :=
  match xs with
  | [] => mret tt
  | x :: xs' => body x;; for_each_in xs' body
  end.

(** [d[k] = v] and [l.append(v)] on the objects at a location. *)
Definition dict_setitem (l : loc) (k : string) (v : value) : H unit :=
  o ← deref (VRef l);
  match o with
  | Some (ODict items) => write l (ODict (assoc_set k v items))
  | _ => lift (raise TypeError)
  end.

Definition list_append (l : loc) (v : value) : H unit :=
  o ← deref (VRef l);
  match o with
  | Some (OList items) => write l (OList (items ++ [v]))
  | _ => lift (raise AttributeError)
  end.

(** The decoded values of a list of values and of the items of a
    dictionary. *)
Definition read_list (items : list value) : H (list json) := λ σ,
  (σ, mret (reify (length σ) σ <$> items)).

Definition read_dict (items : list (string * value))
  : H (gmap string json) := λ σ,
  (σ, mret (list_to_map (prod_map id (reify (length σ) σ) <$> items))).

Section transform_in_store.
Context `{R : Runtime}.

(** A list of [n] times [None], as [[None] * len(dates)] builds it. *)
Definition missing_values (n : nat) : H value :=
  l ← alloc (OList (replicate n VNone));
  mret (VRef l).

(** The body of the loop of lines 108-127: [processed] and
    [new_column_names] are the locations of the two new objects, and a
    well-formed list of [daily] is stored in [processed] as it is,
    under its own location. *)
Definition extract_variable_in (daily : list (string * value))
    (daily_units : value) (n : nat) (processed new_column_names : loc)
    (var : string) : H unit :=
  units ← deref daily_units;
  match units with
  | Some (ODict units) =>
      unit_str ← match assoc var units with
                 | Some u => u ← read u; mret (Some u)
                 | None => mret None
                 end;
      let name := new_col_name var unit_str in
      list_append new_column_names (VStr name);;
      match assoc var daily with
      | None =>
          lift (log WARNING (VariableNotFound var));;
          nones ← missing_values n;
          dict_setitem processed name nones
      | Some v =>
          o ← deref v;
          match o with
          | Some (OList items) =>
              if negb (length items =? n) then
                lift (log ERROR (LengthMismatch var));;
                nones ← missing_values n;
                dict_setitem processed name nones
              else
                dict_setitem processed name v;;
                lift (log INFO (ProcessingVariable var name));;
                head ← read_list (take 5 items);
                lift (log DEBUG (FirstValues name head))
          | _ =>
              lift (log ERROR (LengthMismatch var));;
              nones ← missing_values n;
              dict_setitem processed name nones
          end
      end
  | _ => lift (raise AttributeError)
  end.

(** What [pd.DataFrame] reads under one key of [processed]: a list, or a
    scalar; it refuses a dictionary among lists (not reached here, where
    [dates] is a list or a string). *)
Definition read_column (kv : string * value) : H (string * column_data) :=
  o ← deref kv.2;
  match o with
  | Some (OList items) => l ← read_list items; mret (kv.1, Array l)
  | Some (ODict _) => lift (raise ValueError)
  | None => v ← read kv.2; mret (kv.1, Scalar v)
  end.

Fixpoint read_columns (entries : list (string * value))
  : H (list (string * column_data)) :=
  match entries with
  | [] => mret []
  | kv :: entries' =>
      c ← read_column kv;
      cs ← read_columns entries';
      mret (c :: cs)
  end.

Definition str_items (items : list value) : list string :=
  omap (λ v, match v with VStr s => Some s | _ => None end) items.

(** Lines 131-147: the constructor copies what it reads, and the frame
    is an object of its own that the store does not hold. *)
Definition build_frame_in (processed new_column_names : loc)
  : H (option DataFrame) :=
  try_except_in
    (p ← deref (VRef processed);
     names ← deref (VRef new_column_names);
     match p, names with
     | Some (ODict entries), Some (OList names) =>
         d ← read_columns entries;
         lift (assemble d (str_items names))
     | _, _ => lift (raise TypeError)
     end)
    (λ e, lift (construction_failure e)).

(** Lines 104-147. *)
Definition extract_and_build_in (daily : list (string * value))
    (daily_units : value) (n : nat) (dates : value)
  : H (option DataFrame) :=
  processed ← alloc (ODict [("date", dates)]);
  new_column_names ← alloc (OList [VStr "date"]);
  for_each_in VARIABLES
    (extract_variable_in daily daily_units n processed new_column_names);;
  lift (log INFO FinishedExtraction);;
  build_frame_in processed new_column_names.

(** [process_weather_data(data)] on the store. *)
Definition process_weather_data_in (data : value)
  : H (option DataFrame) :=
  j ← read data;
  lift (log DEBUG (RawType (type j)));;
  o ← deref data;
  match o with
  | Some (ODict items) =>
      match assoc "daily" items, assoc "daily_units" items with
      | Some daily_data, Some daily_units =>
          od ← deref daily_data;
          match od with
          | Some (ODict daily) =>
              keys ← read_dict daily;
              lift (log DEBUG (KeysInDaily keys));;
              units ← read daily_units;
              lift (log DEBUG (FoundUnits units));;
              match assoc "time" daily with
              | None =>
                  lift (log ERROR MissingTime);;
                  mret None
              | Some dates =>
                  ot ← deref dates;
                  match dates, ot with
                  | VStr s, _ =>
                      lift (log INFO (ProcessingDays (str_len s)));;
                      lift (log DEBUG (FirstDates (JStr (str_prefix 5 s))));;
                      extract_and_build_in daily daily_units (str_len s)
                        dates
                  | _, Some (OList l) =>
                      lift (log INFO (ProcessingDays (length l)));;
                      head ← read_list (take 5 l);
                      lift (log DEBUG (FirstDates (JList head)));;
                      extract_and_build_in daily daily_units (length l)
                        dates
                  | _, Some (ODict m) =>
                      lift (log INFO (ProcessingDays (length m)));;
                      lift (raise TypeError)
                  | _, None => lift (raise TypeError)
                  end
              end
          | _ => lift (raise AttributeError)
          end
      | _, _ =>
          lift (log ERROR MissingDailyKeys);;
          lift (log ERROR (ContentOfData j));;
          mret None
      end
  | _ =>
      lift (log ERROR (NotADictionary (type j)));;
      (if isinstance_list j then lift (log ERROR ReturnedAList)
       else mret tt);;
      mret None
  end.

End transform_in_store.

(** ** Notions the properties are stated with *)

(** The part of a column name before its first space. *)
Fixpoint stem (s : string) : string :=
  match s with
  | EmptyString => EmptyString
  | String a s' => if Ascii.eqb a " " then EmptyString else String a (stem s')
  end.

Section notions.
Context `{R : Runtime}.

(** The list stored under a variable's column name by lines 118-125. *)
Definition extracted (daily : gmap string json) (n : nat) (var : string)
  : list json :=
  match daily !! var with
  | Some (JList l) => if length l =? n then l else replicate n JNull
  | _ => replicate n JNull
  end.

(** The column name of a variable under a units mapping. *)
Definition column_name (units : gmap string json) (var : string) : string :=
  new_col_name var (units !! var).

(** A list of decoded values as a column after numeric coercion. *)
Definition numeric (l : list json) : series :=
  (λ v, Num (to_numeric_cell (Obj v))) <$> l.

(** A column after numeric coercion. *)
Definition coerced (s : series) : series :=
  (λ c, Num (to_numeric_cell c)) <$> s.

(** The column that [pd.to_datetime] makes of a column, when it does
    not raise, and the one it makes of a [time] list. *)
Definition converted (s : series) : option series :=
  mapM (convert_cell (column_format s)) s.

Definition to_datetime_column (l : list json) : option series :=
  converted (Obj <$> l).

(** The table of a response whose [daily] and [daily_units] are the
    mappings [daily] and [units], with its column of dates. *)
Definition frame_of (daily units : gmap string json) (n : nat)
    (dates : series) : DataFrame :=
  {| nrows := n;
     columns := ("date", dates)
       :: ((λ var, (column_name units var, numeric (extracted daily n var)))
             <$> VARIABLES) |}.

(** The table of a response whose [daily] and [daily_units] are the
    mappings [daily] and [units], and whose dates converted to [ds]. *)
Definition table_of (daily units : gmap string json) (n : nat)
    (ds : list datetime) : DataFrame :=
  {| nrows := n;
     columns := ("date", Date <$> ds)
       :: ((λ var, (column_name units var, numeric (extracted daily n var)))
             <$> VARIABLES) |}.

(** A variable whose data lines 118-123 replace by missing values. *)
Definition degraded (daily : gmap string json) (n : nat) (var : string)
  : Prop :=
  match daily !! var with
  | None => True
  | Some (JList l) => length l ≠ n
  | Some _ => True
  end.

End notions.

Section more_notions.
Context `{R : Runtime}.

(** A [daily] and a [daily_units] on which a line outside the [try] of
    the transform raises: [daily] has no [keys()], [time] has no [len()]
    or cannot be sliced, or [daily_units] has no [get]. *)
Definition unguarded (daily_data daily_units : json) : bool :=
  match daily_data with
  | JDict daily =>
      match daily !! "time" with
      | None => false
      | Some (JList _) | Some (JStr _) => negb (isinstance_dict daily_units)
      | Some _ => true
      end
  | _ => true
  end.

(** The record that the console shows for a variable, lines 118-126. *)
Definition variable_record (daily units : gmap string json) (n : nat)
    (var : string) : record :=
  match daily !! var with
  | None => (WARNING, VariableNotFound var)
  | Some (JList l) =>
      if length l =? n
      then (INFO, ProcessingVariable var (column_name units var))
      else (ERROR, LengthMismatch var)
  | Some _ => (ERROR, LengthMismatch var)
  end.

(** The field of row 0 for a variable, [n] being the number of rows. *)
Definition first_field (daily units : gmap string json) (n : nat)
    (var : string) : string * cell number datetime :=
  (column_name units var,
   Num (to_numeric_cell (Obj (default JNull (head (extracted daily n var)))))).

(** Row 0 of the table of a response, [c] being its first date. *)
Definition first_fields (daily units : gmap string json) (n : nat)
    (c : cell number datetime) : list (string * cell number datetime) :=
  ("date", c) :: (first_field daily units n <$> VARIABLES).

End more_notions.

(** [frames k c Q]: run in a store with at least [k] objects, [c] leaves
    the first [k] of them as they are, removes none, and returns a value
    that satisfies [Q]. *)
Definition frames (k : nat) {A} (c : H A) (Q : A → Prop) : Prop :=
  ∀ σ, k ≤ length σ →
    take k (c σ).1 = take k σ
    ∧ length σ ≤ length (c σ).1
    ∧ ∀ a, result (c σ).2 = inr a → Q a.

(** A value that refers to an object of the store, if it refers to one,
    and a store whose objects refer to its own objects only. *)
Definition valid (σ : store) (v : value) : Prop :=
  match v with
  | VRef l => l < length σ
  | _ => True
  end.

Definition closed_object (σ : store) (o : object) : Prop :=
  match o with
  | OList items => Forall (valid σ) items
  | ODict items => Forall (λ kv, valid σ kv.2) items
  end.

Definition closed (σ : store) : Prop := Forall (closed_object σ) σ.

(** ** The store and the decoded payload *)

(** One more than the location a value refers to. *)
Definition rank (v : value) : nat :=
  match v with
  | VRef l => S l
  | _ => 0
  end.

(** A store as decoding JSON builds it: an object refers to objects made
    before it only, and a dictionary has each key once. *)
Definition ordered_object (l : loc) (o : object) : Prop :=
  match o with
  | OList items => Forall (λ v, rank v ≤ l) items
  | ODict items => Forall (λ kv, rank kv.2 ≤ l) items ∧ NoDup items.*1
  end.

Definition ordered (σ : store) : Prop :=
  ∀ l o, σ !! l = Some o → ordered_object l o.

(** The decoded value of a value of the store. *)
Definition decode (σ : store) (v : value) : json := reify (length σ) σ v.

Definition decode_items (σ : store) (items : list (string * value))
  : gmap string json :=
  list_to_map (prod_map id (decode σ) <$> items).

(** The outcome of a call in the store after the records [l] were logged. *)
Definition after {A} (l : list record) (x : store * M A) : store * M A :=
  (x.1, (l ++ x.2.1, x.2.2)).

(** What the store [σ'] of a call that started in [σ] holds for the state
    of the pure extraction: [processed] at the location [length σ] and
    [new_column_names] after it; a column that is a list is a reference
    to a list of values of [σ], the list of the payload itself or a new
    list of [None]. *)
Definition holds_column (σ σ' : store) (kv : string * value)
    (c : string * column_data) : Prop :=
  kv.1 = c.1
  ∧ match c.2 with
    | Array l =>
        ∃ x items, kv.2 = VRef x ∧ x ≠ length σ ∧ x ≠ S (length σ)
          ∧ σ' !! x = Some (OList items)
          ∧ Forall (valid σ) items ∧ decode σ <$> items = l
    | Scalar j => ∃ s, kv.2 = VStr s ∧ j = JStr s
    end.

Definition holds (σ σ' : store) (st : extraction) : Prop :=
  take (length σ) σ' = σ
  ∧ ∃ entries,
      σ' !! length σ = Some (ODict entries)
      ∧ σ' !! S (length σ) = Some (OList (VStr <$> st.2))
      ∧ Forall2 (holds_column σ σ') entries st.1.

(** A call on the store and a pure call that log the same, raise the
    same, and return in a store that holds the state the pure call
    returns. *)
Definition simulates (σ : store) (x : store * M unit)
    (y : M extraction) : Prop :=
  x.2.1 = y.1
  ∧ match x.2.2, y.2 with
    | inl e, inl e' => e = e'
    | inr _, inr st => holds σ x.1 st
    | _, _ => False
    end.

(** The column that [processed] holds for [dates]. *)
Definition dates_column (σ : store) (dates : value) (c : column_data)
  : Prop :=
  match c with
  | Array l =>
      ∃ t items, dates = VRef t ∧ σ !! t = Some (OList items)
                 ∧ l = decode σ <$> items
  | Scalar j => ∃ s, dates = VStr s ∧ j = JStr s
  end.

(** ** Sample responses *)

Definition response_of (daily units : gmap string json) : gmap string json :=
  <["daily" := JDict daily]> (<["daily_units" := JDict units]> ∅).

Definition two_days : list json := [JStr "2024-01-01"; JStr "2024-01-02"].

(** The two days as the sample runtime converts them. *)
Definition two_dates : list (@datetime sample_runtime) :=
  ["2024-01-01"; "2024-01-02"].

Definition full_daily : gmap string json :=
  list_to_map [
    ("time", JList two_days);
    ("temperature_2m_mean", JList [JInt 1; JInt 2]);
    ("relative_humidity_2m_mean", JList [JInt 80; JInt 75]);
    ("wind_speed_10m_mean", JList [JInt 12; JInt 9]);
    ("cloud_cover_mean", JList [JInt 40; JInt 100]);
    ("precipitation_sum", JList [JInt 0; JInt 3]);
    ("shortwave_radiation_sum", JList [JInt 7; JInt 5]);
    ("apparent_temperature_mean", JList [JInt (-2); JInt 0]);
    ("dew_point_2m_mean", JList [JInt (-4); JInt (-1)])
  ].

Definition full_units : gmap string json :=
  list_to_map [
    ("temperature_2m_mean", JStr "°C");
    ("relative_humidity_2m_mean", JStr "%");
    ("wind_speed_10m_mean", JStr "km/h");
    ("cloud_cover_mean", JStr "%");
    ("precipitation_sum", JStr "mm");
    ("shortwave_radiation_sum", JStr "MJ/m²");
    ("apparent_temperature_mean", JStr "°C");
    ("dew_point_2m_mean", JStr "°C")
  ].

(** Every unit present, and empty. *)
Definition empty_units : gmap string json :=
  list_to_map ((λ var, (var, JStr "")) <$> VARIABLES).

(** The unit string of a variable in a units mapping. *)
Definition unit_in (units : gmap string json) (var : string) : string :=
  match units !! var with
  | Some (JStr u) => u
  | _ => ""
  end.

(** The scenario of the specification: one variable present, the others
    absent. *)
Definition one_variable_daily : gmap string json :=
  list_to_map [
    ("time", JList two_days);
    ("temperature_2m_mean", JList [JInt 1; JInt 2])
  ].

Definition one_unit : gmap string json :=
  {[ "temperature_2m_mean" := JStr "°C" ]}.

(** A response that passes the structural checks, with a date that does
    not parse. *)
Definition unparseable_daily : gmap string json :=
  {[ "time" := JList [JStr "2024-01-01"; JStr "soon"] ]}.

(** A response whose [daily] is a list, one whose [time] is a number and
    one whose [daily_units] is [null]. *)
Definition list_daily_response : json :=
  JDict (<["daily" := JList []]> (<["daily_units" := JDict ∅]> ∅)).

Definition number_time_response : json :=
  JDict (response_of {[ "time" := JInt 16 ]} ∅).

Definition null_units_response : json :=
  JDict (<["daily" := JDict {[ "time" := JList two_days ]}]>
           (<["daily_units" := JNull]> ∅)).


(** Two dates of two formats, each of them a date on its own. *)
Definition mixed_days : list json := [JStr "2024-01-01"; JStr "01/02/2024"].

Definition mixed_daily : gmap string json := {[ "time" := JList mixed_days ]}.

(** A date, then an empty string and [None], and the column that
    [pd.to_datetime] makes of them. *)
Definition missing_days : list json := [JStr "2024-01-01"; JStr ""; JNull].

Definition missing_days_daily : gmap string json :=
  {[ "time" := JList missing_days ]}.

Definition missing_days_column : list (cell Z string) :=
  [Date "2024-01-01"; NaT; NaT].

(** One day, without a date. *)
Definition no_date_daily : gmap string json := {[ "time" := JList [JNull] ]}.

(** No row at all. *)
Definition no_day_daily : gmap string json := {[ "time" := JList [] ]}.

(** The scenario of the specification as a store: the payload at 4, its
    [daily] at 2, its [daily_units] at 3, the two lists at 0 and 1. *)
Definition scenario_store : store := [
  OList [VStr "2024-01-01"; VStr "2024-01-02"];
  OList [VInt 1; VInt 2];
  ODict [("time", VRef 0); ("temperature_2m_mean", VRef 1)];
  ODict [("temperature_2m_mean", VStr "°C")];
  ODict [("daily", VRef 2); ("daily_units", VRef 3)]
].

(** A [time] that is one date and not a list of dates. *)
Definition string_time_daily : gmap string json :=
  {[ "time" := JStr "2024-01-01" ]}.

(** The sample response with a variable that was not asked for, its unit,
    and the coordinates beside [daily] and [daily_units]. *)
Definition wider_daily : gmap string json :=
  <["sunrise" := JList [JStr "2024-01-01T07:51"; JStr "2024-01-02T07:51"]]>
    full_daily.

Definition wider_units : gmap string json :=
  <["sunrise" := JStr "iso8601"]> full_units.

Definition wider_response : gmap string json :=
  <["latitude" := JInt 43]> (response_of wider_daily wider_units).

(** ** Properties of the monad *)

Section monad_facts.

Lemma result_bind {A B} (c : M A) (f : A → M B) :
  result (c ≫= f) =
    match result c with inl e => inl e | inr a => result (f a) end.
Proof.
  destruct c as [l [e|a]]; simpl; [done|].
  unfold result. simpl. by destruct (f a).
Qed.

Lemma result_ret {A} (a : A) : result (mret a : M A) = inr a.
Proof. done. Qed.

Lemma result_log {A} lv m (k : M A) : result (log lv m;; k) = result k.
Proof. by rewrite result_bind. Qed.

Lemma result_try_except {A} (body : M A) (handler : exn → M A) :
  result (try_except body handler) =
    match result body with
    | inl e => result (handler e)
    | inr a => inr a
    end.
Proof.
  destruct body as [l [e|a]]; simpl; [|done].
  unfold result. simpl. by destruct (handler e).
Qed.

Lemma logged_bind {A B} (c : M A) (f : A → M B) :
  logged (c ≫= f) =
    match result c with
    | inl _ => logged c
    | inr a => logged c ++ logged (f a)
    end.
Proof.
  destruct c as [l [e|a]]; simpl; [done|].
  unfold logged. simpl. by destruct (f a).
Qed.

End monad_facts.

(** ** Column names *)

Section names.
Context `{R : Runtime}.

Lemma stem_app v r : stem v = v → stem (v +:+ String " " r) = v.
Proof.
  induction v as [|a v IH]; simpl; [done|].
  destruct (Ascii.eqb a " ") eqn:Ha; [done|].
  intros [= Hv]. by rewrite IH.
Qed.

Lemma stem_new_col_name var u : stem var = var → stem (new_col_name var u) = var.
Proof.
  intros Hv. destruct u as [u|]; simpl; [|done].
  destruct (truthy u); [|done].
  by apply (stem_app var ("(" +:+ format_unit u +:+ ")")).
Qed.

Lemma VARIABLES_stem : Forall (λ v, stem v = v) VARIABLES.
Proof. repeat constructor. Qed.

Lemma VARIABLES_NoDup : NoDup VARIABLES.
Proof. by apply (bool_decide_unpack _); vm_compute. Qed.

Lemma VARIABLES_not_date : "date" ∉ VARIABLES.
Proof. by apply (bool_decide_unpack _); vm_compute. Qed.

End names.

(** ** Insertion-ordered dictionaries *)

Section assoc_facts.
Context {A : Type}.
Implicit Types (d : list (string * A)) (k : string).

Lemma assoc_None k d : assoc k d = None ↔ k ∉ d.*1.
Proof.
  induction d as [|[k' v] d IH]; simpl.
  - split; [intros _; apply not_elem_of_nil|done].
  - destruct (String.eqb_spec k' k) as [->|Hne].
    + split; [done|]. intros Hk. exfalso. apply Hk. left.
    + rewrite IH, not_elem_of_cons. split; [by intros ?; split|by intros [_ ?]].
Qed.

Lemma assoc_set_fresh k v d :
  k ∉ d.*1 → assoc_set k v d = d ++ [(k, v)].
Proof.
  induction d as [|[k' v'] d IH]; simpl; [done|].
  rewrite not_elem_of_cons. intros [Hne Hd].
  destruct (String.eqb_spec k' k) as [->|_]; [done|].
  by rewrite IH.
Qed.

Lemma assoc_app_fresh k v d d' :
  k ∉ d.*1 → assoc k (d ++ (k, v) :: d') = Some v.
Proof.
  induction d as [|[k' v'] d IH]; simpl.
  - by rewrite String.eqb_refl.
  - rewrite not_elem_of_cons. intros [Hne Hd].
    destruct (String.eqb_spec k' k) as [->|_]; [done|]. by apply IH.
Qed.

Lemma assoc_set_app_fresh k v w d d' :
  k ∉ d.*1 → assoc_set k w (d ++ (k, v) :: d') = d ++ (k, w) :: d'.
Proof.
  induction d as [|[k' v'] d IH]; simpl.
  - by rewrite String.eqb_refl.
  - rewrite not_elem_of_cons. intros [Hne Hd].
    destruct (String.eqb_spec k' k) as [->|_]; [done|]. by rewrite IH.
Qed.

End assoc_facts.

(** ** The extraction loop and the construction of the frame *)

Section transform_facts.
Context `{R : Runtime}.
Implicit Types (daily units : gmap string json) (n : nat).

Lemma length_extracted daily n var : length (extracted daily n var) = n.
Proof.
  unfold extracted. destruct (daily !! var) as [[]|];
    rewrite ?length_replicate; try done.
  destruct (length l =? n) eqn:E; [by apply Nat.eqb_eq|].
  by rewrite length_replicate.
Qed.

(** One iteration stores [extracted] under the variable's column name. *)
Lemma extract_variable_result daily units n processed names var :
  result (extract_variable daily (JDict units) n (processed, names) var) =
    inr (assoc_set (column_name units var)
           (Array (extracted daily n var)) processed,
         names ++ [column_name units var]).
Proof.
  unfold extract_variable, extracted, column_name. simpl.
  destruct (daily !! var) as [[| | | | |l|]|]; try done.
  by destruct (length l =? n).
Qed.

Lemma extract_loop daily units n vs : ∀ processed names,
  Forall (λ v, stem v = v) vs →
  NoDup vs →
  (∀ k, k ∈ processed.*1 → stem k ∉ vs) →
  result (for_each vs (extract_variable daily (JDict units) n)
            (processed, names)) =
    inr (processed
           ++ ((λ v, (column_name units v, Array (extracted daily n v)))
                 <$> vs),
         names ++ (column_name units <$> vs)).
Proof.
  induction vs as [|v vs IH]; intros processed names Hstem Hnd Hfresh.
  { simpl. by rewrite !app_nil_r. }
  apply Forall_cons in Hstem as [Hv Hstem].
  apply NoDup_cons in Hnd as [Hv_vs Hnd].
  cbn [for_each]. rewrite result_bind, extract_variable_result.
  assert (column_name units v ∉ processed.*1) as Hnew.
  { intros Hin%Hfresh. apply Hin. unfold column_name.
    rewrite stem_new_col_name by done. left. }
  rewrite assoc_set_fresh by done.
  rewrite IH; [|done|done|].
  - simpl. by rewrite <-!app_assoc.
  - intros k. rewrite fmap_app, elem_of_app. intros [Hk| Hk].
    + intros Hin. apply (Hfresh k Hk). by right.
    + simpl in Hk. apply list_elem_of_singleton in Hk as ->.
      unfold column_name. by rewrite stem_new_col_name.
Qed.

(** The constructor succeeds on columns of one length. *)
Lemma pd_DataFrame_result (d : list (string * column_data)) n :
  Forall (λ kv, ∀ l, kv.2 = Array l → length l = n) d →
  Exists (λ kv, ∃ l, kv.2 = Array l) d →
  result (pd_DataFrame d) =
    inr {| nrows := n; columns := prod_map id (broadcast n) <$> d |}.
Proof.
  intros Hlen Hex. unfold pd_DataFrame.
  assert (Forall (λ m, m = n) (omap (λ kv, array_length kv.2) d)) as Hall.
  { clear Hex. induction Hlen as [|[k [l|v]] d Hk _ IH]; simpl.
    - constructor.
    - constructor; [by apply Hk|done].
    - done. }
  assert (omap (λ kv, array_length kv.2) d ≠ []) as Hne.
  { clear Hall Hlen.
    induction Hex as [[k c] d [l Hl]|[k [l|v]] d _ IH]; simpl in *;
      by simplify_eq. }
  destruct (omap _ d) as [|m ms]; [done|].
  apply Forall_cons in Hall as [-> Hall].
  replace (forallb (Nat.eqb n) ms) with true; [done|].
  symmetry. clear Hne.
  induction Hall as [|m ms -> _ IH]; simpl; [done|].
  by rewrite Nat.eqb_refl.
Qed.

(** The coercion loop replaces each listed column by its numeric form. *)
Lemma coerce_loop n (col : string → series) (name : string → string) vs :
  ∀ pre,
  NoDup (name <$> vs) →
  (∀ v, v ∈ vs → (name v ∉ pre.*1) ∧ name v ≠ "date") →
  result (for_each (name <$> vs) coerce_column
            {| nrows := n;
               columns := pre ++ ((λ v, (name v, col v)) <$> vs) |}) =
    inr {| nrows := n;
           columns := pre
             ++ ((λ v, (name v, coerced (col v))) <$> vs) |}.
Proof.
  induction vs as [|v vs IH]; intros pre Hnd Hfresh; [done|].
  rewrite fmap_cons in Hnd. apply NoDup_cons in Hnd as [Hv Hnd].
  destruct (Hfresh v) as [Hpre Hdate]; [left|].
  cbn [fmap list_fmap for_each]. rewrite result_bind.
  unfold coerce_column at 1.
  destruct (String.eqb_spec (name v) "date") as [|_]; [done|].
  cbn [negb]. rewrite result_bind. unfold df_getitem, df_setitem.
  cbn [columns nrows]. rewrite assoc_app_fresh by done.
  rewrite result_ret, result_bind. cbn [pd_to_numeric].
  fold (coerced (col v)). rewrite result_ret, assoc_set_app_fresh by done.
  rewrite (cons_middle _ pre), app_assoc, result_ret.
  rewrite (IH (pre ++ [(name v, coerced (col v))])); [|done|].
  - by rewrite <-app_assoc.
  - intros v' Hv'. destruct (Hfresh v') as [Hpre' Hdate']; [by right|].
    split; [|done]. rewrite fmap_app, elem_of_app. intros [?|Hin]; [done|].
    simpl in Hin. apply list_elem_of_singleton in Hin. apply Hv.
    rewrite <-Hin. by apply list_elem_of_fmap_2.
Qed.

End transform_facts.

Section transform_result.
Context `{R : Runtime}.
Implicit Types (daily units : gmap string json) (n : nat).

Lemma column_name_NoDup units vs :
  Forall (λ v, stem v = v) vs → NoDup vs →
  NoDup (column_name units <$> vs).
Proof.
  intros Hstem Hnd. apply NoDup_fmap_2_strong; [|done].
  intros x y Hx Hy Heq. rewrite Forall_forall in Hstem.
  rewrite <-(stem_new_col_name x (units !! x)) by auto.
  rewrite <-(stem_new_col_name y (units !! y)) by auto.
  unfold column_name in Heq. by rewrite Heq.
Qed.

Lemma column_name_not_date units v :
  v ∈ VARIABLES → column_name units v ≠ "date".
Proof.
  intros Hv Heq. apply VARIABLES_not_date.
  pose proof VARIABLES_stem as Hstem. rewrite Forall_forall in Hstem.
  rewrite <-(stem_new_col_name v (units !! v)) in Hv by auto.
  unfold column_name in Heq. by rewrite Heq in Hv.
Qed.

Lemma pd_to_numeric_Obj (l : list json) :
  coerced (Obj <$> l) = numeric l.
Proof. unfold coerced, numeric. by rewrite <-list_fmap_compose. Qed.

(** Lines 104-147 on mappings [daily] and [units]: the frame is built
    exactly when the column of dates converts, and it is [frame_of]. *)
Lemma extract_and_build_result daily units n dates :
  (∀ l, dates = Array l → length l = n) →
  result (extract_and_build daily (JDict units) n dates) =
    match converted (broadcast n dates) with
    | Some ds => inr (Some (frame_of daily units n ds))
    | None => inr None
    end.
Proof.
  intros Hdates. unfold extract_and_build.
  rewrite result_bind, extract_loop;
    [|apply VARIABLES_stem|apply VARIABLES_NoDup|].
  2:{ intros k Hk. simpl in Hk. apply list_elem_of_singleton in Hk as ->.
      apply VARIABLES_not_date. }
  rewrite result_log. unfold build_frame, assemble, construction_failure.
  rewrite result_try_except, result_bind.
  rewrite (pd_DataFrame_result _ n).
  2:{ constructor; [done|]. apply Forall_fmap, Forall_true.
      intros v l [= <-]. apply length_extracted. }
  2:{ right. left. by eexists. }
  rewrite result_bind. cbn [app for_each]. rewrite result_bind.
  cbn [coerce_column String.eqb Ascii.eqb Bool.eqb negb].
  rewrite result_ret.
  rewrite fmap_cons, <-list_fmap_compose.
  match goal with
  | |- context [result (for_each ?ns coerce_column ?df)] =>
      change (result (for_each ns coerce_column df)) with
        (result (for_each (column_name units <$> VARIABLES) coerce_column
           {| nrows := n;
              columns := [("date", broadcast n dates)]
                ++ ((λ v, (column_name units v,
                           Obj <$> extracted daily n v)) <$> VARIABLES) |}))
  end.
  rewrite (coerce_loop n (λ v, Obj <$> extracted daily n v)
             (column_name units) VARIABLES [("date", broadcast n dates)]).
  2:{ apply column_name_NoDup; [apply VARIABLES_stem|apply VARIABLES_NoDup]. }
  2:{ intros v Hv. pose proof (column_name_not_date units v Hv).
      split; [|done]. simpl. by rewrite list_elem_of_singleton. }
  rewrite result_bind. unfold df_getitem. cbn [columns app assoc].
  cbn [String.eqb Ascii.eqb Bool.eqb]. rewrite result_ret, result_bind.
  unfold pd_to_datetime, converted.
  destruct (mapM _ (broadcast n dates)) as [ds|]; [|done].
  rewrite result_ret, !result_log, result_ret.
  unfold frame_of, df_setitem. cbn [columns nrows assoc_set].
  cbn [String.eqb Ascii.eqb Bool.eqb].
  do 4 f_equal. apply list_fmap_ext. intros _ v _.
  by rewrite pd_to_numeric_Obj.
Qed.

End transform_result.

(** ** The transform on a response *)

Section process_facts.
Context `{R : Runtime}.
Implicit Types (d daily units : gmap string json) (n : nat).

(** A [daily_units] that is not a mapping has no [get]: the first
    iteration of the loop raises. *)
Lemma extract_and_build_units_raise daily daily_units n dates :
  isinstance_dict daily_units = false →
  result (extract_and_build daily daily_units n dates) = inl AttributeError.
Proof. by destruct daily_units. Qed.

Lemma process_list_result d daily units dates :
  d !! "daily" = Some (JDict daily) →
  d !! "daily_units" = Some (JDict units) →
  daily !! "time" = Some (JList dates) →
  result (process_weather_data (JDict d)) =
    match to_datetime_column dates with
    | Some ds => inr (Some (frame_of daily units (length dates) ds))
    | None => inr None
    end.
Proof.
  intros Hd Hu Ht. unfold process_weather_data.
  rewrite result_log, Hd, Hu, !result_log, Ht, !result_log.
  rewrite extract_and_build_result; [done|]. by intros l [= ->].
Qed.

Lemma process_str_result d daily units s :
  d !! "daily" = Some (JDict daily) →
  d !! "daily_units" = Some (JDict units) →
  daily !! "time" = Some (JStr s) →
  result (process_weather_data (JDict d)) =
    match converted (replicate (str_len s) (Obj (JStr s))) with
    | Some ds => inr (Some (frame_of daily units (str_len s) ds))
    | None => inr None
    end.
Proof.
  intros Hd Hu Ht. unfold process_weather_data.
  rewrite result_log, Hd, Hu, !result_log, Ht, !result_log.
  by rewrite extract_and_build_result.
Qed.

(** Every returned table is [frame_of] a response whose dates converted. *)
Lemma process_returned_inv data t :
  result (process_weather_data data) = inr (Some t) →
  ∃ d daily units n dates ds,
    data = JDict d
    ∧ d !! "daily" = Some (JDict daily)
    ∧ d !! "daily_units" = Some (JDict units)
    ∧ ((∃ l, daily !! "time" = Some (JList l)
             ∧ dates = Array l ∧ n = length l)
       ∨ (∃ s, daily !! "time" = Some (JStr s)
               ∧ dates = Scalar (JStr s) ∧ n = str_len s))
    ∧ converted (broadcast n dates) = Some ds
    ∧ t = frame_of daily units n ds.
Proof.
  destruct data as [| | | | |l|d]; try done.
  unfold process_weather_data. rewrite result_log.
  destruct (d !! "daily") as [daily_data|] eqn:Hd; [|done].
  destruct (d !! "daily_units") as [daily_units|] eqn:Hu; [|done].
  destruct daily_data as [| | | | | |daily]; try done.
  rewrite !result_log.
  destruct (daily !! "time") as [[| | | |s|l|m]|] eqn:Ht; try done;
    rewrite !result_log.
  - destruct (isinstance_dict daily_units) eqn:Hdict.
    + destruct daily_units as [| | | | | |units]; try done.
      rewrite extract_and_build_result by done.
      destruct (converted _) as [ds|] eqn:Hds; [|done].
      intros [= <-]. exists d, daily, units, (str_len s), (Scalar (JStr s)), ds.
      repeat split; try done. right. by exists s.
    + by rewrite extract_and_build_units_raise.
  - destruct (isinstance_dict daily_units) eqn:Hdict.
    + destruct daily_units as [| | | | | |units]; try done.
      rewrite extract_and_build_result by (by intros ? [= ->]).
      destruct (converted _) as [ds|] eqn:Hds; [|done].
      intros [= <-]. exists d, daily, units, (length l), (Array l), ds.
      repeat split; try done. left. by exists l.
    + by rewrite extract_and_build_units_raise.
Qed.

Lemma assoc_fmap_key {A} (f : string → string) (g : string → A) vs v :
  (∀ x y, x ∈ vs → y ∈ vs → f x = f y → x = y) → v ∈ vs →
  assoc (f v) ((λ x, (f x, g x)) <$> vs) = Some (g v).
Proof.
  intros Hinj Hv. induction vs as [|x vs IH]; [by apply elem_of_nil in Hv|].
  simpl. destruct (String.eqb_spec (f x) (f v)) as [Heq|Hne].
  - f_equal. f_equal. apply Hinj; [left|done|done].
  - apply elem_of_cons in Hv as [->|Hv]; [done|].
    apply IH; [|done]. intros ?????. apply Hinj; by try right.
Qed.

(** The column of a configured variable in the table. *)
Lemma assoc_table_of daily units n ds var :
  var ∈ VARIABLES →
  assoc (column_name units var) (columns (frame_of daily units n ds)) =
    Some (numeric (extracted daily n var)).
Proof.
  intros Hv. unfold frame_of. cbn [columns assoc].
  destruct (String.eqb_spec "date" (column_name units var)) as [Heq|_].
  { by destruct (column_name_not_date units var). }
  apply (assoc_fmap_key (column_name units)
           (λ v, numeric (extracted daily n v))); [|done].
  pose proof VARIABLES_stem as Hstem. rewrite Forall_forall in Hstem.
  intros x y Hx Hy Heq.
  rewrite <-(stem_new_col_name x (units !! x)) by auto.
  rewrite <-(stem_new_col_name y (units !! y)) by auto.
  unfold column_name in Heq. by rewrite Heq.
Qed.

Lemma extracted_degraded daily n var :
  degraded daily n var → extracted daily n var = replicate n JNull.
Proof.
  unfold degraded, extracted. destruct (daily !! var) as [[]|]; try done.
  intros Hne. by destruct (Nat.eqb_spec (length l) n).
Qed.

Lemma numeric_missing n : numeric (replicate n JNull) = replicate n (Num None).
Proof. unfold numeric. by rewrite fmap_replicate. Qed.

End process_facts.

(** ** Column names and row count of a valid response *)

Section valid_response.
Context `{R : Runtime}.
Implicit Types (d daily units : gmap string json).

Lemma columns_table_of_names daily units n ds :
  (columns (frame_of daily units n ds)).*1 =
    "date" :: (column_name units <$> VARIABLES).
Proof.
  reflexivity.
Qed.

Lemma column_name_unit units var u :
  units !! var = Some (JStr u) → u ≠ "" →
  column_name units var = var +:+ " (" +:+ u +:+ ")".
Proof.
  intros Hu Hne. unfold column_name. rewrite Hu. simpl.
  by destruct (String.eqb_spec u "").
Qed.

Lemma columns_table_of_length daily units n ds :
  length ds = n →
  Forall (λ kv, length kv.2 = n) (columns (frame_of daily units n ds)).
Proof.
  intros Hds. unfold frame_of. cbn [columns]. constructor.
  - done.
  - apply Forall_fmap, Forall_true. intros var. simpl.
    unfold numeric. by rewrite length_fmap, length_extracted.
Qed.

Lemma to_datetime_length (s : series) ds :
  converted s = Some ds → length ds = length s.
Proof. intros Hds. symmetry. by eapply length_mapM. Qed.

(** C1, as amended: for every valid response (a mapping with [daily]
    and [daily_units], [daily.time] a list of N date strings that
    [pd.to_datetime] converts as one column, each to a calendar date,
    every configured variable a list of length N in [daily], and a
    non-empty unit string in [daily_units] for every configured
    variable), the transform returns a table of exactly N rows whose
    columns are [date], with these dates, and then one per configured
    variable, named "<variable> (<unit>)". *)
Theorem valid_response_table d daily units dates ds :
  d !! "daily" = Some (JDict daily) →
  d !! "daily_units" = Some (JDict units) →
  daily !! "time" = Some (JList dates) →
  Forall (λ v, ∃ s, v = JStr s) dates →
  to_datetime_column dates = Some (Date <$> ds) →
  Forall (λ var, ∃ l, daily !! var = Some (JList l)
                      ∧ length l = length dates) VARIABLES →
  Forall (λ var, ∃ u, units !! var = Some (JStr u) ∧ u ≠ "") VARIABLES →
  ∃ t, result (process_weather_data (JDict d)) = inr (Some t)
       ∧ nrows t = length dates
       ∧ Forall (λ kv, length kv.2 = length dates) (columns t)
       ∧ assoc "date" (columns t) = Some (Date <$> ds)
       ∧ (columns t).*1 =
           "date" :: ((λ var, var +:+ " (" +:+ unit_in units var +:+ ")")
                        <$> VARIABLES).
Proof.
  intros Hd Hu Ht _ Hds _ Hunits.
  rewrite (process_list_result d daily units dates), Hds by done.
  eexists. split; [done|]. split; [done|]. split; [|split; [done|]].
  - apply columns_table_of_length.
    by rewrite (to_datetime_length _ _ Hds), length_fmap.
  - rewrite columns_table_of_names. f_equal.
    apply Forall_fmap_ext_1. eapply Forall_impl; [exact Hunits|].
    intros var (u & Hvar & Hne). unfold unit_in. rewrite Hvar.
    by apply column_name_unit.
Qed.

End valid_response.

(** The valid response of the sample, converted by the sample runtime. *)
Lemma valid_response_table_witness :
  ∃ t, result (process_weather_data (JDict (response_of full_daily full_units)))
         = inr (Some t)
       ∧ nrows t = 2
       ∧ Forall (λ kv, length kv.2 = 2) (columns t)
       ∧ assoc "date" (columns t) = Some (Date <$> two_dates)
       ∧ (columns t).*1 =
           "date" :: ((λ var, var +:+ " (" +:+ unit_in full_units var +:+ ")")
                        <$> VARIABLES).
Proof.
  apply (valid_response_table (R := sample_runtime)
           (response_of full_daily full_units)
           full_daily full_units two_days two_dates).
  - reflexivity.
  - reflexivity.
  - reflexivity.
  - repeat constructor; eexists; reflexivity.
  - reflexivity.
  - repeat constructor; eexists; (split; reflexivity).
  - repeat constructor; eexists; (split; [reflexivity|discriminate]).
Defined.

(** C1 as the specification states it fails where a unit string is empty:
    the column then carries the bare variable name. *)
Lemma valid_response_table_counterexample :
  ¬ (∀ d daily units dates ds,
       d !! "daily" = Some (JDict daily) →
       d !! "daily_units" = Some (JDict units) →
       daily !! "time" = Some (JList dates) →
       Forall (λ v, ∃ s, v = JStr s) dates →
       to_datetime_column dates = Some (Date <$> ds) →
       Forall (λ var, ∃ l, daily !! var = Some (JList l)
                           ∧ length l = length dates) VARIABLES →
       Forall (λ var, ∃ u, units !! var = Some (JStr u)) VARIABLES →
       ∃ t, result (process_weather_data (JDict d)) = inr (Some t)
            ∧ nrows t = length dates
            ∧ Forall (λ kv, length kv.2 = length dates) (columns t)
            ∧ (columns t).*1 =
                "date" :: ((λ var, var +:+ " (" +:+ unit_in units var +:+ ")")
                             <$> VARIABLES)).
Proof.
  intros claim.
  destruct (claim (response_of full_daily empty_units) full_daily empty_units
              two_days two_dates) as (t & Ht & _ & _ & Hnames).
  - reflexivity.
  - reflexivity.
  - reflexivity.
  - repeat constructor; eexists; reflexivity.
  - reflexivity.
  - repeat constructor; eexists; (split; reflexivity).
  - repeat constructor; eexists; reflexivity.
  - assert (result (process_weather_data
                      (JDict (response_of full_daily empty_units))) =
            inr (Some (table_of full_daily empty_units 2
                         two_dates))) as Hrun
      by reflexivity.
    rewrite Hrun in Ht. injection Ht as <-. discriminate Hnames.
Qed.

(** ** Degraded variables *)

Section degraded_variables.
Context `{R : Runtime}.
Implicit Types (d daily units : gmap string json).

Lemma extracted_present daily n var l :
  daily !! var = Some (JList l) → length l = n → extracted daily n var = l.
Proof.
  intros Hvar Hlen. unfold extracted. rewrite Hvar.
  by destruct (Nat.eqb_spec (length l) n).
Qed.

(** C2, as amended: for every response whose [daily] and [daily_units]
    are mappings and whose [time] is a list that [pd.to_datetime]
    converts as one column, and every configured variable that is absent
    from [daily], or is not a list, or has a length other than that of
    [time], the transform returns a table in which that variable's
    column holds N missing-value markers, and the column of every other
    configured variable that is a list of length N holds that variable's
    own values, coerced. *)
Theorem degraded_variable_column d daily units dates ds var :
  d !! "daily" = Some (JDict daily) →
  d !! "daily_units" = Some (JDict units) →
  daily !! "time" = Some (JList dates) →
  to_datetime_column dates = Some ds →
  var ∈ VARIABLES →
  degraded daily (length dates) var →
  ∃ t, result (process_weather_data (JDict d)) = inr (Some t)
       ∧ nrows t = length dates
       ∧ assoc (column_name units var) (columns t) =
           Some (replicate (length dates) (Num None))
       ∧ ∀ var' l, var' ∈ VARIABLES → var' ≠ var →
           daily !! var' = Some (JList l) → length l = length dates →
           assoc (column_name units var') (columns t) = Some (numeric l).
Proof.
  intros Hd Hu Ht Hds Hvar Hdeg.
  rewrite (process_list_result d daily units dates), Hds by done.
  eexists. split; [done|]. split; [done|]. split.
  - by rewrite assoc_table_of, extracted_degraded, numeric_missing.
  - intros var' l Hvar' _ Hl Hlen.
    by rewrite assoc_table_of, (extracted_present _ _ _ l).
Qed.

End degraded_variables.

(** The scenario of the specification: [precipitation_sum] is absent, the
    temperature column keeps its two values. *)
Lemma degraded_variable_column_witness :
  ∃ t, result (process_weather_data
                 (JDict (response_of one_variable_daily one_unit)))
         = inr (Some t)
       ∧ nrows t = 2
       ∧ assoc (column_name one_unit "precipitation_sum") (columns t) =
           Some (replicate 2 (Num None))
       ∧ ∀ var' l, var' ∈ VARIABLES → var' ≠ "precipitation_sum" →
           one_variable_daily !! var' = Some (JList l) → length l = 2 →
           assoc (column_name one_unit var') (columns t) = Some (numeric l).
Proof.
  apply (degraded_variable_column (R := sample_runtime)
           (response_of one_variable_daily one_unit)
           one_variable_daily one_unit two_days (Date <$> two_dates)).
  - reflexivity.
  - reflexivity.
  - reflexivity.
  - reflexivity.
  - do 4 right. left.
  - exact I.
Defined.

(** C2 as the specification states it fails on a response that passes the
    structural checks and carries a date that does not parse: no table is
    returned, whatever the variables are. *)
Lemma degraded_variable_column_counterexample :
  ¬ (∀ d daily units dates var,
       d !! "daily" = Some (JDict daily) →
       d !! "daily_units" = Some (JDict units) →
       daily !! "time" = Some (JList dates) →
       var ∈ VARIABLES →
       degraded daily (length dates) var →
       ∃ t, result (process_weather_data (JDict d)) = inr (Some t)
            ∧ assoc (column_name units var) (columns t) =
                Some (replicate (length dates) (Num None))).
Proof.
  intros claim.
  destruct (claim (response_of unparseable_daily ∅) unparseable_daily ∅
              [JStr "2024-01-01"; JStr "soon"] "precipitation_sum")
    as (t & Ht & _).
  - reflexivity.
  - reflexivity.
  - reflexivity.
  - do 4 right. left.
  - exact I.
  - assert (result (process_weather_data
                      (JDict (response_of unparseable_daily ∅))) = inr None)
      as Hrun by reflexivity.
    rewrite Hrun in Ht. discriminate Ht.
Qed.

(** ** Structural failures *)

Section structural.
Context `{R : Runtime}.
Implicit Types (d daily : gmap string json).

(** C3: a payload that is not a mapping, or a mapping without [daily]
    or without [daily_units], or one whose [daily] mapping has no
    [time], makes the transform return [None]; for a top-level list the
    log holds the records of the structural error and nothing else. *)
Theorem structural_failure data :
  isinstance_dict data = false
  ∨ (∃ d, data = JDict d
          ∧ (d !! "daily" = None ∨ d !! "daily_units" = None))
  ∨ (∃ d daily, data = JDict d
                ∧ d !! "daily" = Some (JDict daily)
                ∧ daily !! "time" = None) →
  result (process_weather_data data) = inr None
  ∧ (isinstance_list data = true →
     logged (process_weather_data data) =
       [(DEBUG, RawType List); (ERROR, NotADictionary List);
        (ERROR, ReturnedAList)]).
Proof.
  intros [Hnd|[(d & -> & Hkeys)|(d & daily & -> & Hd & Ht)]].
  - by destruct data.
  - split; [|done]. unfold process_weather_data. rewrite result_log.
    destruct Hkeys as [->| ->]; [done|]. by destruct (d !! "daily").
  - split; [|done]. unfold process_weather_data. rewrite result_log, Hd.
    destruct (d !! "daily_units"); [|done]. by rewrite !result_log, Ht.
Qed.

(** C5 fails on the code, outside any [try]: [daily_data.keys()] on line
    93 raises [AttributeError] when [daily] is a list, [len(dates)] on
    line 101 raises [TypeError] when [time] is a number, and
    [daily_units.get] on line 110 raises [AttributeError] when
    [daily_units] is [null]. *)
Theorem transform_raises_outside_try :
  result (process_weather_data list_daily_response) = inl AttributeError
  ∧ result (process_weather_data number_time_response) = inl TypeError
  ∧ result (process_weather_data null_units_response) = inl AttributeError.
Proof. repeat split; reflexivity. Qed.

End structural.

(** A top-level list, as a multi-location answer would be. *)
Lemma structural_failure_witness :
  result (process_weather_data (JList [JDict ∅; JDict ∅])) = inr None
  ∧ (isinstance_list (JList [JDict ∅; JDict ∅]) = true →
     logged (process_weather_data (JList [JDict ∅; JDict ∅])) =
       [(DEBUG, RawType List); (ERROR, NotADictionary List);
        (ERROR, ReturnedAList)]).
Proof.
  apply (structural_failure (JList [JDict ∅; JDict ∅])).
  left. reflexivity.
Defined.

(** ** Display names *)

Section display_names.
Context `{R : Runtime}.
Implicit Types (d units : gmap string json).

(** C4, as amended: in a returned table the column of every configured
    variable is named "<variable> (<unit>)" when [daily_units] has a
    non-empty unit string for it, and exactly the variable name when
    [daily_units] has no entry for it or an empty unit string, whatever
    [daily] holds for the variable. *)
Theorem display_column_name d units t i var :
  d !! "daily_units" = Some (JDict units) →
  result (process_weather_data (JDict d)) = inr (Some t) →
  VARIABLES !! i = Some var →
  ∃ name, (columns t).*1 !! S i = Some name
    ∧ (∀ u, units !! var = Some (JStr u) → u ≠ "" →
         name = var +:+ " (" +:+ u +:+ ")")
    ∧ (units !! var = None ∨ units !! var = Some (JStr "") → name = var).
Proof.
  intros Hu Ht Hi.
  apply process_returned_inv in Ht
    as (d' & daily & units' & n & dates & ds & [= <-] & _ & Hu' & _ & _ & ->).
  rewrite Hu in Hu'. injection Hu' as <-.
  exists (column_name units var). rewrite columns_table_of_names.
  split; [|split].
  - change ((column_name units <$> VARIABLES) !! i =
              Some (column_name units var)).
    by rewrite list_lookup_fmap, Hi.
  - intros u Hvar Hne. by apply column_name_unit.
  - unfold column_name. by intros [-> | ->].
Qed.

End display_names.

(** The first configured variable of the sample response. *)
Lemma display_column_name_witness :
  ∃ name,
    (columns (table_of full_daily full_units 2 two_dates)).*1
      !! 1 = Some name
    ∧ (∀ u, full_units !! "temperature_2m_mean" = Some (JStr u) → u ≠ "" →
         name = "temperature_2m_mean" +:+ " (" +:+ u +:+ ")")
    ∧ (full_units !! "temperature_2m_mean" = None
       ∨ full_units !! "temperature_2m_mean" = Some (JStr "") →
       name = "temperature_2m_mean").
Proof.
  apply (display_column_name (response_of full_daily full_units) full_units
           (table_of full_daily full_units 2 two_dates)
           0 "temperature_2m_mean").
  - reflexivity.
  - reflexivity.
  - reflexivity.
Defined.

(** C4 as the specification states it fails on an empty unit string: the
    column of the first variable is named by the variable alone. *)
Lemma display_column_name_counterexample :
  ¬ (∀ d units t i var u,
       d !! "daily_units" = Some (JDict units) →
       result (process_weather_data (JDict d)) = inr (Some t) →
       VARIABLES !! i = Some var →
       units !! var = Some (JStr u) →
       (columns t).*1 !! S i = Some (var +:+ " (" +:+ u +:+ ")")).
Proof.
  intros claim.
  specialize (claim (response_of full_daily empty_units) empty_units
                (table_of full_daily empty_units 2
                   two_dates)
                0 "temperature_2m_mean" "").
  specialize (claim eq_refl eq_refl eq_refl eq_refl). discriminate claim.
Qed.

(** ** Numeric coercion and date parsing *)

Section coercion_and_dates.
Context `{R : Runtime}.
Implicit Types (d daily units : gmap string json).

Lemma numeric_lookup (l : list json) i v :
  l !! i = Some v → numeric l !! i = Some (Num (to_numeric_cell (Obj v))).
Proof. intros Hi. unfold numeric. by rewrite list_lookup_fmap, Hi. Qed.




Lemma converted_lookup (s ds : series) i c :
  converted s = Some ds → s !! i = Some c →
  ∃ c', convert_cell (column_format s) c = Some c' ∧ ds !! i = Some c'.
Proof.
  intros Hds Hi. apply mapM_Some_1 in Hds.
  destruct (Forall2_lookup_l _ _ _ i _ Hds Hi) as (c' & Hc' & Hconv).
  by exists c'.
Qed.

(** C8, as amended: on mappings with a [time] list, one value of the
    list that [pd.to_datetime] does not read as missing and that does
    not parse in the format of the column makes the transform return
    [None]; and in a returned table the [date] column holds one cell
    per row, which is [NaT] where the value of [time] is read as
    missing, [None] and the empty string among them, and the calendar
    date parsed from that value in the format of the column
    otherwise. *)
Theorem date_parsing_is_fatal d daily units dates :
  d !! "daily" = Some (JDict daily) →
  d !! "daily_units" = Some (JDict units) →
  daily !! "time" = Some (JList dates) →
  (∀ v, v ∈ dates →
        is_missing_date (Obj v) = false →
        parse_datetime (column_format (Obj <$> dates)) (Obj v) = None →
        result (process_weather_data (JDict d)) = inr None)
  ∧ (∀ t, result (process_weather_data (JDict d)) = inr (Some t) →
       ∃ col, assoc "date" (columns t) = Some col
         ∧ length col = nrows t
         ∧ ∀ i v, dates !! i = Some v →
             if is_missing_date (Obj v) then col !! i = Some NaT
             else ∃ x,
               parse_datetime (column_format (Obj <$> dates)) (Obj v)
                 = Some x
               ∧ col !! i = Some (Date x)).
Proof.
  intros Hd Hu Ht.
  rewrite (process_list_result d daily units dates) by done.
  unfold to_datetime_column. split.
  - intros v Hv Hpresent Hfail.
    destruct (converted (Obj <$> dates)) as [ds|] eqn:Hds; [|done].
    apply (list_elem_of_fmap_2 (Obj (number:=number) (datetime:=datetime)))
      in Hv.
    apply list_elem_of_lookup in Hv as [i Hi].
    destruct (converted_lookup _ _ _ _ Hds Hi) as (c' & Hc' & _).
    cbn [convert_cell] in Hc'. by rewrite Hpresent, Hfail in Hc'.
  - intros t Hrun.
    destruct (converted (Obj <$> dates)) as [ds|] eqn:Hds; [|done].
    injection Hrun as <-. exists ds. split; [done|]. split.
    { cbn [nrows]. by rewrite (to_datetime_length _ _ Hds), length_fmap. }
    intros i v Hi.
    assert ((Obj <$> dates : series) !! i = Some (Obj v)) as Hcell
      by by rewrite list_lookup_fmap, Hi.
    destruct (converted_lookup _ _ _ _ Hds Hcell) as (c' & Hc' & Hlook).
    cbn [convert_cell] in Hc'.
    destruct (is_missing_date (Obj v)); [by injection Hc' as <-|].
    destruct (parse_datetime _ _) as [x|]; [|done].
    injection Hc' as <-. by exists x.
Qed.

End coercion_and_dates.


(** A date in another format than the first, on which no table is
    returned, and the dates of the table of a [time] that holds two
    missing values. *)
Lemma date_parsing_is_fatal_witness :
  result (process_weather_data (JDict (response_of mixed_daily ∅)))
    = inr None
  ∧ ∃ col,
      assoc "date" (columns (frame_of (R := sample_runtime)
                               missing_days_daily ∅ 3 missing_days_column))
        = Some col
      ∧ length col = 3
      ∧ ∀ i v, missing_days !! i = Some v →
          if is_missing_date (Obj v) then col !! i = Some NaT
          else ∃ x,
            parse_datetime (column_format (Obj <$> missing_days)) (Obj v)
              = Some x
            ∧ col !! i = Some (Date x).
Proof.
  split.
  - apply (proj1 (date_parsing_is_fatal (R := sample_runtime)
                    (response_of mixed_daily ∅) mixed_daily ∅ mixed_days
                    eq_refl eq_refl eq_refl)
             (JStr "01/02/2024")).
    + right. left.
    + reflexivity.
    + reflexivity.
  - apply (proj2 (date_parsing_is_fatal (R := sample_runtime)
                    (response_of missing_days_daily ∅) missing_days_daily ∅
                    missing_days eq_refl eq_refl eq_refl)
             (frame_of (R := sample_runtime) missing_days_daily ∅ 3
                missing_days_column)).
    reflexivity.
Defined.

(** C8 as the specification states it fails on a [time] that holds an
    empty string and [None]: neither is a calendar date, the table is
    returned all the same, and its second and third rows have no date. *)
Lemma date_parsing_is_fatal_counterexample :
  ¬ (∀ data t,
       result (process_weather_data data) = inr (Some t) →
       ∃ ds : list (@datetime sample_runtime),
         assoc "date" (columns t) = Some (Date <$> ds)).
Proof.
  intros claim.
  destruct (claim (JDict (response_of missing_days_daily ∅))
              (frame_of (R := sample_runtime) missing_days_daily ∅ 3
                 missing_days_column)) as [ds Hds].
  - reflexivity.
  - cbn in Hds. injection Hds as Hds.
    destruct ds as [|? [|? ?]]; discriminate Hds.
Qed.

(** ** Fetching and the web endpoint *)

Section endpoint.
Context `{R : Runtime}.

(** C9: when the exchange decodes to a falsy payload, the whole call
    logs four records, none of them the transform's, and returns
    [None]; the transform, when called, always logs the type of its
    argument first, so it was not called. *)
Theorem falsy_payload_bypasses_transform payload :
  truthy payload = false →
  fetch_and_process_forecast (Decoded payload) =
    ([(INFO, Executing); (INFO, Fetching FORECAST_API_URL);
      (INFO, Fetched); (ERROR, FetchFailed)], inr None)
  ∧ ∀ data, ∃ rest,
      logged (process_weather_data data) =
        (DEBUG, RawType (type data)) :: rest.
Proof.
  intros Hfalsy. split.
  - unfold fetch_and_process_forecast. simpl. by rewrite Hfalsy.
  - intros data. unfold process_weather_data. rewrite logged_bind.
    simpl. by eexists.
Qed.

Lemma fetch_failure_result x :
  (∀ payload, x ≠ Decoded payload) → (∀ e, x ≠ Uncaught e) →
  result (fetch_and_process_forecast x) = inr None.
Proof.
  intros Hx He. destruct x as [| |readable|e|payload]; try reflexivity.
  - by destruct readable.
  - by destruct (He e).
  - by destruct (Hx payload).
Qed.


(** Row 0 of a frame whose columns have a first cell: one field per
    column, under its name, with that cell. *)
Lemma iloc0_fields (df : DataFrame) :
  Forall (λ kv, kv.2 ≠ []) (columns df) →
  Forall2 (λ f kv, f.1 = kv.1 ∧ kv.2 !! 0 = Some f.2)
    (iloc0 df) (columns df).
Proof.
  unfold iloc0. induction 1 as [|[name [|c col]] cols Hcol _ IH];
    [constructor|done|].
  cbn. by constructor.
Qed.

Lemma fields_iloc0 (df : DataFrame) fields :
  Forall2 (λ f kv, f.1 = kv.1 ∧ kv.2 !! 0 = Some f.2) fields (columns df) →
  fields = iloc0 df.
Proof.
  unfold iloc0.
  induction 1 as [|[name c] [name' col] fields cols [Hname Hcell] _ IH];
    [done|].
  simpl in *. subst name'. destruct col as [|c' col]; [done|].
  injection Hcell as ->. cbn. by rewrite IH.
Qed.

Lemma returned_columns_nonempty payload t :
  result (process_weather_data payload) = inr (Some t) →
  0 < nrows t → Forall (λ kv, kv.2 ≠ []) (columns t).
Proof.
  intros Hrun Hrows. apply process_returned_inv in Hrun
    as (d & daily & units & n & dates & ds & _ & _ & _ & Hdates & Hds & ->).
  cbn [nrows] in Hrows.
  assert (length ds = n) as Hlen.
  { rewrite (to_datetime_length _ _ Hds).
    destruct Hdates as [(l & _ & -> & ->)|(s & _ & -> & ->)]; simpl.
    - by rewrite length_fmap.
    - by rewrite length_replicate. }
  eapply Forall_impl; [by apply columns_table_of_length|].
  intros [name col] Hcol. simpl in *. destruct col; [simpl in Hcol; lia|done].
Qed.

Lemma weather_result x :
  result (weather x) =
    match result (fetch_and_process_forecast x) with
    | inl e => inl e
    | inr None => inr (Object [("error", "No data")], 500)
    | inr (Some t) =>
        if 0 <? nrows t then
          match jsonify_raises (iloc0 t) with
          | Some e => inl e
          | None => inr (Row (iloc0 t), 200)
          end
        else inr (Object [("error", "No data")], 500)
    end.
Proof.
  unfold weather. rewrite result_bind.
  destruct (result (fetch_and_process_forecast x)) as [e|[t|]]; try done.
  unfold df_len, first_row, jsonify. destruct (nrows t) as [|n]; [done|].
  cbn [Nat.ltb Nat.leb]. rewrite result_bind, result_ret, result_bind.
  by destruct (jsonify_raises (iloc0 t)).
Qed.


End endpoint.

(** An empty mapping is falsy. *)
Lemma falsy_payload_bypasses_transform_witness :
  fetch_and_process_forecast (Decoded (JDict ∅)) =
    ([(INFO, Executing); (INFO, Fetching FORECAST_API_URL);
      (INFO, Fetched); (ERROR, FetchFailed)], inr None)
  ∧ ∀ data, ∃ rest,
      logged (process_weather_data data) =
        (DEBUG, RawType (type data)) :: rest.
Proof.
  apply (falsy_payload_bypasses_transform (JDict ∅)). reflexivity.
Defined.



(** ** Calls that leave the objects of the caller alone *)

Create HintDb frames discriminated.

Section frame_rules.
Context (k : nat).

Lemma frames_ret {A} (a : A) (Q : A → Prop) : Q a → frames k (mret a) Q.
Proof. intros Ha σ _. repeat split; [done|]. by intros ? [= <-]. Qed.

Lemma frames_bind {A B} (c : H A) (f : A → H B) (P : A → Prop)
    (Q : B → Prop) :
  frames k c P → (∀ a, P a → frames k (f a) Q) → frames k (c ≫= f) Q.
Proof.
  intros Hc Hf σ Hk. destruct (Hc σ Hk) as (Htake & Hlen & Hres).
  unfold mbind, H_bind. destruct (c σ) as [σ' [l [e|a]]]; simpl in *.
  { repeat split; done. }
  destruct (Hf a (Hres a eq_refl) σ') as (Htake' & Hlen' & Hres'); [lia|].
  destruct (f a σ') as [σ'' [l' r]]; simpl in *.
  split; [congruence|]. split; [lia|done].
Qed.

Lemma frames_weaken {A} (c : H A) (P Q : A → Prop) :
  frames k c P → (∀ a, P a → Q a) → frames k c Q.
Proof.
  intros Hc HPQ σ Hk. destruct (Hc σ Hk) as (? & ? & ?).
  repeat split; auto.
Qed.

Lemma frames_lift {A} (m : M A) : frames k (lift m) (λ _, True).
Proof. by intros σ _. Qed.

Lemma frames_deref v : frames k (deref v) (λ _, True).
Proof. by intros σ _. Qed.

Lemma frames_read v : frames k (read v) (λ _, True).
Proof. by intros σ _. Qed.

Lemma frames_read_list items : frames k (read_list items) (λ _, True).
Proof. by intros σ _. Qed.

Lemma frames_read_dict items : frames k (read_dict items) (λ _, True).
Proof. by intros σ _. Qed.

(** A new object lies beyond the objects of the caller. *)
Lemma frames_alloc o : frames k (alloc o) (λ l, k ≤ l).
Proof.
  intros σ Hk. unfold alloc. simpl. split; [by apply take_app_le|].
  split; [rewrite length_app; lia|]. by intros ? [= <-].
Qed.

(** A write beyond the objects of the caller. *)
Lemma frames_write l o : k ≤ l → frames k (write l o) (λ _, True).
Proof.
  intros Hl σ Hk. unfold write. cbn [fst snd].
  split; [by apply take_insert_ge|]. by rewrite length_insert.
Qed.

Lemma frames_try_except {A} (body : H A) (handler : exn → H A)
    (Q : A → Prop) :
  frames k body Q → (∀ e, frames k (handler e) Q) →
  frames k (try_except_in body handler) Q.
Proof.
  intros Hb Hh σ Hk. destruct (Hb σ Hk) as (Htake & Hlen & Hres).
  unfold try_except_in. destruct (body σ) as [σ' [l [e|a]]]; simpl in *.
  - destruct (Hh e σ') as (Htake' & Hlen' & Hres'); [lia|].
    destruct (handler e σ') as [σ'' [l' r]]; simpl in *.
    split; [congruence|]. split; [lia|done].
  - repeat split; done.
Qed.

Lemma frames_for_each_in {A} (xs : list A) (body : A → H unit) :
  (∀ x, frames k (body x) (λ _, True)) →
  frames k (for_each_in xs body) (λ _, True).
Proof.
  intros Hbody. induction xs as [|x xs IH]; simpl.
  - by apply frames_ret.
  - eapply frames_bind; [apply Hbody|]. by intros _ _.
Qed.

Lemma frames_dict_setitem l key v :
  k ≤ l → frames k (dict_setitem l key v) (λ _, True).
Proof.
  intros Hl. unfold dict_setitem.
  eapply frames_bind; [apply frames_deref|]. intros [[]|] _.
  - apply frames_lift.
  - by apply frames_write.
  - apply frames_lift.
Qed.

Lemma frames_list_append l v :
  k ≤ l → frames k (list_append l v) (λ _, True).
Proof.
  intros Hl. unfold list_append.
  eapply frames_bind; [apply frames_deref|]. intros [[]|] _.
  - by apply frames_write.
  - apply frames_lift.
  - apply frames_lift.
Qed.

End frame_rules.

#[export] Hint Resolve frames_lift frames_deref frames_read frames_read_list
  frames_read_dict frames_alloc frames_write frames_dict_setitem
  frames_list_append : frames.

(** One step through a sequence of calls, a branch or a handler. *)
Ltac frames_step :=
  lazymatch goal with
  | |- frames _ (mret _) _ =>
      first [by apply frames_ret | by apply (frames_ret _ _ (λ _, True))]
  | |- frames _ (_ ≫= _) _ => eapply frames_bind; [|intros ? ?]
  | |- frames _ (try_except_in _ _) _ => apply frames_try_except; [|intros ?]
  | |- frames _ (for_each_in _ _) _ => apply frames_for_each_in; intros ?
  | |- frames _ (match ?x with _ => _ end) _ => destruct x
  | |- frames _ (if ?b then _ else _) _ => destruct b
  | |- frames _ _ _ => by eauto with frames
  end.

Section transform_frames.
Context `{R : Runtime}.
Context (k : nat).

Lemma frames_missing_values n :
  frames k (missing_values n) (λ v, ∃ l, v = VRef l ∧ k ≤ l).
Proof.
  unfold missing_values. eapply frames_bind; [apply frames_alloc|].
  intros l Hl. apply frames_ret. by exists l.
Qed.

Lemma frames_extract_variable_in daily daily_units n processed names var :
  k ≤ processed → k ≤ names →
  frames k (extract_variable_in daily daily_units n processed names var)
    (λ _, True).
Proof.
  intros Hp Hn. unfold extract_variable_in.
  assert (∀ name, frames k
            (nones ← missing_values n; dict_setitem processed name nones)
            (λ _, True)) as Hnones.
  { intros name. eapply frames_bind; [apply frames_missing_values|].
    intros v _. by apply frames_dict_setitem. }
  repeat first [apply Hnones | frames_step].
Qed.

Lemma frames_read_columns entries :
  frames k (read_columns entries) (λ _, True).
Proof.
  induction entries as [|kv entries IH]; simpl; [by apply frames_ret|].
  unfold read_column. repeat first [apply IH | frames_step].
Qed.

Lemma frames_build_frame_in processed names :
  frames k (build_frame_in processed names) (λ _, True).
Proof.
  unfold build_frame_in.
  repeat first [apply frames_read_columns | frames_step].
Qed.

Lemma frames_extract_and_build_in daily daily_units n dates :
  frames k (extract_and_build_in daily daily_units n dates) (λ _, True).
Proof.
  unfold extract_and_build_in.
  eapply frames_bind; [apply frames_alloc|]. intros processed Hp.
  eapply frames_bind; [apply frames_alloc|]. intros names Hn.
  eapply frames_bind.
  { apply frames_for_each_in. intros var.
    by apply frames_extract_variable_in. }
  intros _ _. eapply frames_bind; [apply frames_lift|]. intros _ _.
  apply frames_build_frame_in.
Qed.

Lemma frames_process_weather_data_in data :
  frames k (process_weather_data_in data) (λ _, True).
Proof.
  unfold process_weather_data_in.
  repeat first [apply frames_extract_and_build_in | frames_step].
Qed.

End transform_frames.

(** ** What the call adds to the store *)

Section new_objects.
Context `{R : Runtime}.

(** New objects do not change what a value of a closed store decodes
    to. *)
Lemma reify_app depth σ fresh v :
  closed σ → valid σ v → reify depth (σ ++ fresh) v = reify depth σ v.
Proof.
  intros Hclosed. revert v.
  induction depth as [|depth IH]; intros [| | | | |l] Hv; try done.
  simpl in Hv. cbn [reify]. rewrite lookup_app_l by done.
  destruct (σ !! l) as [o|] eqn:Hl; [|done].
  pose proof (Forall_lookup_1 _ _ _ _ Hclosed Hl) as Ho.
  destruct o as [items|items]; simpl in Ho.
  - f_equal. apply Forall_fmap_ext_1.
    eapply Forall_impl; [exact Ho|]. intros v. apply IH.
  - do 2 f_equal. apply Forall_fmap_ext_1.
    eapply Forall_impl; [exact Ho|]. intros [key v] Hkv. simpl in *.
    by rewrite IH.
Qed.

(** The call only adds objects at the end of the store. *)
Lemma process_weather_data_in_extends σ data :
  ∃ fresh, (process_weather_data_in data σ).1 = σ ++ fresh.
Proof.
  destruct (frames_process_weather_data_in (length σ) data σ)
    as (Htake & Hlen & _); [done|].
  exists (drop (length σ) (process_weather_data_in data σ).1).
  rewrite <-(take_drop (length σ) (process_weather_data_in data σ).1) at 1.
  f_equal. rewrite Htake. by apply take_ge.
Qed.

End new_objects.

(** The transform on the store and the transform on the decoded value log
    and return the same on the scenario of the specification. *)
Example scenario_in_store :
  (process_weather_data_in (VRef 4) scenario_store).2 =
    process_weather_data (JDict (response_of one_variable_daily one_unit)).
Proof. reflexivity. Qed.

(** * The transform on the store and the transform on the decoded value *)

(** ** Decoding a value of an ordered store *)

Section decoding.
Implicit Types (σ : store) (v : value).

Lemma valid_rank σ v : valid σ v ↔ rank v ≤ length σ.
Proof. destruct v; simpl; split; intros; first [exact I | lia]. Qed.

Lemma ordered_closed σ : ordered σ → closed σ.
Proof.
  intros Hord. apply Forall_lookup_2. intros l o Hl.
  pose proof (lookup_lt_Some _ _ _ Hl) as Hlt.
  specialize (Hord l o Hl).
  destruct o as [items|items]; cbn [ordered_object closed_object] in *.
  - eapply Forall_impl; [exact Hord|]. intros v Hv. apply valid_rank.
    cbn beta in Hv. lia.
  - destruct Hord as [Hord _]. eapply Forall_impl; [exact Hord|].
    intros kv Hv. apply valid_rank. cbn beta in Hv. lia.
Qed.

(** Any depth beyond the rank of a value decodes it in full. *)
Lemma reify_depth σ d d' v :
  ordered σ → rank v ≤ d → rank v ≤ d' → reify d σ v = reify d' σ v.
Proof.
  intros Hord. revert d' v.
  induction d as [|d IH]; intros d' [| | | | |l] Hd Hd';
    try (by destruct d'); simpl in Hd, Hd'; [lia|].
  destruct d' as [|d']; [lia|]. cbn [reify].
  destruct (σ !! l) as [o|] eqn:Hl; [|done].
  specialize (Hord l o Hl). destruct o as [items|items]; simpl in Hord.
  - f_equal. apply Forall_fmap_ext_1.
    eapply Forall_impl; [exact Hord|]. intros v Hv. cbn beta in Hv.
    apply IH; lia.
  - destruct Hord as [Hord _]. do 2 f_equal. apply Forall_fmap_ext_1.
    eapply Forall_impl; [exact Hord|]. intros [key v] Hv. simpl in Hv.
    simpl. f_equal. apply IH; lia.
Qed.

(** A value that is no reference decodes to itself. *)
Lemma decode_scalar σ v : rank v = 0 → decode σ v = reify 0 σ v.
Proof. unfold decode. by destruct v, (length σ). Qed.

Lemma decode_None σ : decode σ VNone = JNull.
Proof. by rewrite decode_scalar. Qed.

Lemma decode_list σ l items :
  ordered σ → σ !! l = Some (OList items) →
  decode σ (VRef l) = JList (decode σ <$> items).
Proof.
  intros Hord Hl. pose proof (lookup_lt_Some _ _ _ Hl) as Hlt.
  unfold decode. rewrite (reify_depth σ (length σ) (S l)) by (simpl; lia || done).
  cbn [reify]. rewrite Hl. f_equal. apply Forall_fmap_ext_1.
  eapply Forall_impl; [exact (Hord l _ Hl)|]. intros v Hv. simpl in Hv.
  apply reify_depth; [done|lia|lia].
Qed.

Lemma decode_dict σ l items :
  ordered σ → σ !! l = Some (ODict items) →
  decode σ (VRef l) = JDict (decode_items σ items).
Proof.
  intros Hord Hl. pose proof (lookup_lt_Some _ _ _ Hl) as Hlt.
  unfold decode_items, decode.
  rewrite (reify_depth σ (length σ) (S l)) by (simpl; lia || done).
  cbn [reify]. rewrite Hl. do 2 f_equal. apply Forall_fmap_ext_1.
  destruct (Hord l _ Hl) as [Hitems _].
  eapply Forall_impl; [exact Hitems|]. intros [key v] Hv. simpl in Hv.
  simpl. f_equal. apply reify_depth; [done|lia|lia].
Qed.

(** Objects added to an ordered store, and writes to them, do not change
    what a value of that store decodes to. *)
Lemma reify_extended σ σ' d v :
  ordered σ → valid σ v → take (length σ) σ' = σ → length σ' ≤ d →
  reify d σ' v = decode σ v.
Proof.
  intros Hord Hv Htake Hd.
  rewrite <-(take_drop (length σ) σ'), Htake.
  rewrite reify_app by auto using ordered_closed.
  assert (length σ ≤ length σ') as Hlen.
  { rewrite <-Htake at 1. rewrite length_take. lia. }
  apply valid_rank in Hv. apply reify_depth; [done|lia|lia].
Qed.

Lemma lookup_decode_items σ items key :
  decode_items σ items !! key = decode σ <$> assoc key items.
Proof.
  unfold decode_items. induction items as [|[key' v] items IH]; [done|].
  cbn [fmap list_fmap prod_map list_to_map foldr assoc fst snd id].
  destruct (String.eqb_spec key' key) as [->|Hne].
  - by rewrite lookup_insert_eq.
  - by rewrite lookup_insert_ne.
Qed.

Lemma size_decode_items σ items :
  NoDup items.*1 → size (decode_items σ items) = length items.
Proof.
  intros Hnd. unfold decode_items. rewrite map_size_list_to_map.
  - by rewrite length_fmap.
  - by rewrite <-list_fmap_compose.
Qed.

End decoding.

(** ** Running a call in a store *)

Section running.
Context {A B : Type}.
Implicit Types (σ : store) (f : A → H B).

Lemma run_bind (c : H A) f σ σ' a :
  c σ = (σ', mret a) → (c ≫= f) σ = f a σ'.
Proof.
  intros Hc. unfold mbind, H_bind. rewrite Hc. simpl.
  by destruct (f a σ') as [σ'' [l' r]].
Qed.

Lemma run_ret (a : A) f σ : (mret a ≫= f) σ = f a σ.
Proof. by apply run_bind. Qed.

Lemma run_lift_ret (a : A) f σ : (lift (mret a) ≫= f) σ = f a σ.
Proof. by apply run_bind. Qed.

Lemma run_bind_assoc {C} (c : H C) (g : C → H A) f σ :
  ((c ≫= g) ≫= f) σ = (c ≫= (λ x, g x ≫= f)) σ.
Proof.
  unfold mbind, H_bind. destruct (c σ) as [σ1 [l1 [e|x]]]; [done|].
  destruct (g x σ1) as [σ2 [l2 [e|a]]]; [done|].
  destruct (f a σ2) as [σ3 [l3 r]]. by rewrite app_assoc.
Qed.

End running.

Section running_steps.
Context {B : Type}.
Implicit Types (σ : store).

Lemma run_deref v (f : option object → H B) σ :
  (deref v ≫= f) σ = f (match v with VRef l => σ !! l | _ => None end) σ.
Proof. by apply run_bind. Qed.

Lemma run_read v (f : json → H B) σ :
  (read v ≫= f) σ = f (reify (length σ) σ v) σ.
Proof. by apply run_bind. Qed.

Lemma run_read_list items (f : list json → H B) σ :
  (read_list items ≫= f) σ = f (reify (length σ) σ <$> items) σ.
Proof. by apply run_bind. Qed.

Lemma run_read_dict items (f : gmap string json → H B) σ :
  (read_dict items ≫= f) σ =
    f (list_to_map (prod_map id (reify (length σ) σ) <$> items)) σ.
Proof. by apply run_bind. Qed.

Lemma run_alloc o (f : loc → H B) σ :
  (alloc o ≫= f) σ = f (length σ) (σ ++ [o]).
Proof. by apply run_bind. Qed.

Lemma run_write l o (f : unit → H B) σ :
  (write l o ≫= f) σ = f tt (<[l:=o]> σ).
Proof. by apply run_bind. Qed.

Lemma run_log lv m (f : unit → H B) σ :
  (lift (log lv m) ≫= f) σ = after [(lv, m)] (f tt σ).
Proof.
  unfold mbind, H_bind, lift, log, after. simpl.
  by destruct (f tt σ) as [σ' [l' r]].
Qed.

Lemma run_raise {A} e (f : A → H B) σ :
  (lift (raise e) ≫= f) σ = (σ, ([], inl e)).
Proof. done. Qed.

Lemma after_2 l (x : store * M B) : (after l x).2 = (l ++ x.2.1, x.2.2).
Proof. done. Qed.

Lemma log_bind {C} lv m (g : unit → M C) :
  (log lv m ≫= g) = ((lv, m) :: (g tt).1, (g tt).2).
Proof. unfold mbind, M_bind, log. simpl. by destruct (g tt). Qed.

End running_steps.

(** ** The extraction loop on the store *)

Section extraction_in_store.
Context `{R : Runtime}.
Context (σ : store) (Hord : ordered σ).
Implicit Types (processed : list (string * column_data))
  (names : list string).

Lemma lookup_prefix (σ' : store) l :
  take (length σ) σ' = σ → l < length σ → σ' !! l = σ !! l.
Proof.
  intros Htake Hl. pose proof (lookup_take_lt σ' (length σ) l Hl) as Hlt.
  by rewrite Htake in Hlt.
Qed.

Lemma prefix_length (σ' : store) : take (length σ) σ' = σ → length σ ≤ length σ'.
Proof.
  intros Htake. rewrite <-Htake at 1. rewrite length_take. lia.
Qed.

Lemma holds_column_mono (σ1 σ2 : store) kv c :
  (∀ x, x ≠ length σ → x ≠ S (length σ) → is_Some (σ1 !! x) →
        σ2 !! x = σ1 !! x) →
  holds_column σ σ1 kv c → holds_column σ σ2 kv c.
Proof.
  intros Hsame [Hkey Hcol]. split; [done|].
  destruct (c.2) as [l|j]; [|done].
  destruct Hcol as (x & items & Hkv & Hp & Hnm & Hx & Hvalid & Hl).
  exists x, items. repeat split; try done. rewrite Hsame; by rewrite ?Hx.
Qed.

Lemma holds_column_set σ' name v c entries processed :
  holds_column σ σ' (name, v) (name, c) →
  Forall2 (holds_column σ σ') entries processed →
  Forall2 (holds_column σ σ') (assoc_set name v entries)
    (assoc_set name c processed).
Proof.
  intros Hnew Hall.
  induction Hall as [|[k w] [k' c'] entries processed [Hk Hc] Htail IH].
  { by constructor. }
  simpl in Hk. subst k'. cbn [assoc_set].
  destruct (String.eqb_spec k name) as [->|_].
  - by constructor.
  - constructor; [by split|]. apply IH.
Qed.

(** [new_column_names.append(name)] *)
Lemma append_name σ' processed names name :
  holds σ σ' (processed, names) →
  ∃ σ1, list_append (S (length σ)) (VStr name) σ' = (σ1, mret tt)
        ∧ holds σ σ1 (processed, names ++ [name]).
Proof.
  intros (Htake & entries & Hp & Hnm & Hcols). cbn [fst snd] in *.
  unfold list_append. rewrite run_deref, Hnm. eexists. split; [done|].
  pose proof (prefix_length _ Htake) as Hlen.
  pose proof (lookup_lt_Some _ _ _ Hnm) as Hlt.
  split; [by rewrite take_insert_ge by lia|]. exists entries. cbn [fst snd].
  split; [by rewrite list_lookup_insert_ne by lia|].
  split; [by rewrite list_lookup_insert_eq, fmap_app by done|].
  eapply Forall2_impl; [exact Hcols|]. intros kv c.
  apply holds_column_mono. intros x _ Hx _.
  by rewrite list_lookup_insert_ne.
Qed.

(** [processed[name] = [None] * n] *)
Lemma set_missing σ' processed names name n :
  holds σ σ' (processed, names) →
  ∃ σ1, (missing_values n ≫= dict_setitem (length σ) name) σ' = (σ1, mret tt)
        ∧ holds σ σ1
            (assoc_set name (Array (replicate n JNull)) processed, names).
Proof.
  intros (Htake & entries & Hp & Hnm & Hcols). cbn [fst snd] in *.
  pose proof (prefix_length _ Htake) as Hlen.
  pose proof (lookup_lt_Some _ _ _ Hp) as Hltp.
  pose proof (lookup_lt_Some _ _ _ Hnm) as Hltn.
  unfold missing_values. rewrite run_bind_assoc, run_alloc, run_ret.
  unfold dict_setitem. rewrite run_deref, lookup_app_l, Hp by done.
  eexists. split; [done|].
  assert (∀ x, x ≠ length σ → is_Some (σ' !! x) →
            <[length σ:=ODict (assoc_set name (VRef (length σ')) entries)]>
              (σ' ++ [OList (replicate n VNone)]) !! x = σ' !! x) as Hsame.
  { intros x Hx [o Ho]. pose proof (lookup_lt_Some _ _ _ Ho).
    by rewrite list_lookup_insert_ne, lookup_app_l. }
  split; [by rewrite take_insert_ge, take_app_le by lia|].
  exists (assoc_set name (VRef (length σ')) entries). cbn [fst snd].
  split; [by rewrite list_lookup_insert_eq by (rewrite length_app; lia)|].
  split; [by rewrite Hsame by (by rewrite ?Hnm; lia || eauto)|].
  apply holds_column_set.
  - split; [done|]. exists (length σ'), (replicate n VNone). cbn [fst snd].
    split; [done|]. split; [lia|]. split; [lia|].
    split; [by rewrite list_lookup_insert_ne, lookup_app_r, Nat.sub_diag
              by lia|].
    split; [by apply Forall_replicate|].
    by rewrite fmap_replicate, decode_None.
  - eapply Forall2_impl; [exact Hcols|]. intros kv c.
    apply holds_column_mono. intros x Hx _ Hsome. by apply Hsame.
Qed.

(** [processed[name] = daily_data[var]], a list of the payload *)
Lemma set_alias σ' processed names name y items :
  holds σ σ' (processed, names) →
  σ !! y = Some (OList items) →
  ∃ σ1, dict_setitem (length σ) name (VRef y) σ' = (σ1, mret tt)
        ∧ take (length σ) σ1 = σ ∧ length σ1 = length σ'
        ∧ holds σ σ1
            (assoc_set name (Array (decode σ <$> items)) processed, names).
Proof.
  intros (Htake & entries & Hp & Hnm & Hcols) Hy. cbn [fst snd] in *.
  pose proof (prefix_length _ Htake) as Hlen.
  pose proof (lookup_lt_Some _ _ _ Hp) as Hltp.
  pose proof (lookup_lt_Some _ _ _ Hy) as Hlty.
  unfold dict_setitem. rewrite run_deref, Hp.
  eexists. split; [done|].
  assert (take (length σ)
            (<[length σ:=ODict (assoc_set name (VRef y) entries)]> σ') = σ)
    as Htake' by (by rewrite take_insert_ge by lia).
  split; [done|]. split; [by rewrite length_insert|]. split; [done|].
  exists (assoc_set name (VRef y) entries). cbn [fst snd].
  split; [by rewrite list_lookup_insert_eq by lia|].
  split; [by rewrite list_lookup_insert_ne by lia|].
  apply holds_column_set.
  - split; [done|]. exists y, items. cbn [fst snd].
    split; [done|]. split; [lia|]. split; [lia|].
    split; [by rewrite lookup_prefix by done|]. split; [|done].
    eapply Forall_impl; [exact (Hord y _ Hy)|]. intros v Hv.
    apply valid_rank. cbn beta in Hv. lia.
  - eapply Forall2_impl; [exact Hcols|]. intros kv c.
    apply holds_column_mono. intros x Hx _ _.
    by rewrite list_lookup_insert_ne.
Qed.

End extraction_in_store.

Section monad_laws.

Lemma mret_bind {A B} (a : A) (f : A → M B) : (mret a ≫= f) = f a.
Proof. unfold mbind, M_bind, mret, M_ret. by destruct (f a). Qed.

Lemma assoc_elem_of {A} key (d : list (string * A)) v :
  assoc key d = Some v → (key, v) ∈ d.
Proof.
  induction d as [|[key' w] d IH]; [done|]. simpl.
  destruct (String.eqb_spec key' key) as [->|_].
  - intros [= ->]. left.
  - intros Hd. right. by apply IH.
Qed.

End monad_laws.

Section variable_in_store.
Context `{R : Runtime}.
Context (σ : store) (Hord : ordered σ).
Implicit Types (processed : list (string * column_data))
  (names : list string).

Lemma valid_item l items key v :
  σ !! l = Some (ODict items) → assoc key items = Some v → valid σ v.
Proof.
  intros Hl Hv. destruct (Hord l _ Hl) as [Hitems _].
  rewrite Forall_forall in Hitems.
  specialize (Hitems _ (assoc_elem_of _ _ _ Hv)).
  pose proof (lookup_lt_Some _ _ _ Hl). apply valid_rank. simpl in *. lia.
Qed.

Lemma valid_items l items :
  σ !! l = Some (OList items) → Forall (valid σ) items.
Proof.
  intros Hl. eapply Forall_impl; [exact (Hord l _ Hl)|]. intros v Hv.
  pose proof (lookup_lt_Some _ _ _ Hl). apply valid_rank. simpl in *. lia.
Qed.

Lemma read_extended (σ' : store) items :
  take (length σ) σ' = σ → Forall (valid σ) items →
  reify (length σ') σ' <$> items = decode σ <$> items.
Proof.
  intros Htake Hitems. apply Forall_fmap_ext_1.
  eapply Forall_impl; [exact Hitems|]. intros v Hv.
  by apply reify_extended.
Qed.

(** A variable replaced by missing values, after a record is logged. *)
Lemma missing_simulates (σ' : store) processed names name n lv msg :
  holds σ σ' (processed, names) →
  simulates σ
    ((lift (log lv msg)
      ≫= λ _, missing_values n
      ≫= λ nones, dict_setitem (length σ) name nones) σ')
    (log lv msg
     ≫= λ _, mret (assoc_set name (Array (replicate n JNull)) processed,
                   names)).
Proof.
  intros Hholds. rewrite run_log, log_bind.
  destruct (set_missing σ σ' processed names name n Hholds)
    as (σ1 & Hrun & Hholds1).
  change (missing_values n ≫= λ nones, dict_setitem (length σ) name nones)
    with (missing_values n ≫= dict_setitem (length σ) name).
  rewrite Hrun. by split.
Qed.

(** One iteration of the loop of lines 108-127 on the store does what
    the pure iteration does. *)
Lemma extract_variable_simulates (σ' : store) st daily daily_units n var :
  holds σ σ' st →
  (∀ key v, assoc key daily = Some v → valid σ v) →
  valid σ daily_units →
  simulates σ
    (extract_variable_in daily daily_units n (length σ) (S (length σ)) var σ')
    (extract_variable (decode_items σ daily) (decode σ daily_units) n st var).
Proof.
  destruct st as [processed names]. intros Hholds Hdaily Hunits.
  unfold extract_variable_in, extract_variable. rewrite run_deref.
  destruct daily_units as [| | | | |u];
    try (rewrite decode_scalar by done; by split).
  simpl in Hunits. rewrite (lookup_prefix σ) by (done || apply Hholds).
  destruct (σ !! u) as [[uitems|uitems]|] eqn:Hu.
  { rewrite (decode_list σ u uitems) by done. by split. }
  2:{ apply lookup_ge_None in Hu. lia. }
  rewrite (decode_dict σ u uitems) by done. cbn [units_get].
  rewrite mret_bind, lookup_decode_items.
  (* the unit *)
  assert (∀ k : option json → H unit,
            ((match assoc var uitems with
              | Some u => read u ≫= λ u, mret (Some u)
              | None => mret None
              end) ≫= k) σ' = k (decode σ <$> assoc var uitems) σ') as ->.
  { intros k. destruct (assoc var uitems) as [uv|] eqn:Huv.
    - rewrite run_bind_assoc, run_read, run_ret. simpl. f_equal. f_equal.
      apply reify_extended; [done| |apply Hholds|done].
      by apply (valid_item u uitems var).
    - by rewrite run_ret. }
  set (name := new_col_name var (decode σ <$> assoc var uitems)).
  (* the name *)
  destruct (append_name σ σ' processed names name Hholds)
    as (σ1 & Hrun & Hholds1).
  rewrite (run_bind _ _ _ _ _ Hrun).
  (* the data *)
  rewrite lookup_decode_items.
  destruct (assoc var daily) as [v|] eqn:Hv; cbn [fmap option_fmap option_map].
  2:{ by apply missing_simulates. }
  specialize (Hdaily var v Hv). rewrite run_deref.
  destruct v as [| | | | |y];
    try (rewrite decode_scalar by done; by apply missing_simulates).
  simpl in Hdaily. rewrite (lookup_prefix σ) by (done || apply Hholds1).
  destruct (σ !! y) as [[items|items]|] eqn:Hy.
  3:{ apply lookup_ge_None in Hy. lia. }
  2:{ rewrite (decode_dict σ y items) by done. by apply missing_simulates. }
  rewrite (decode_list σ y items) by done. rewrite length_fmap.
  destruct (length items =? n); cbn [negb].
  2:{ by apply missing_simulates. }
  destruct (set_alias σ Hord σ1 processed (names ++ [name]) name y items
              Hholds1 Hy) as (σ2 & Hrun2 & Htake2 & Hlen2 & Hholds2).
  rewrite (run_bind _ _ _ _ _ Hrun2), run_log, run_read_list.
  rewrite !log_bind. unfold lift, log, after. cbn [fst snd app].
  rewrite <-fmap_take, (read_extended σ2) by
    (done || by apply Forall_take, (valid_items y)).
  by split.
Qed.

End variable_in_store.

(** ** The frame built from the store *)

Section frame_in_store.
Context `{R : Runtime}.
Context (σ : store) (Hord : ordered σ).
Implicit Types (processed : list (string * column_data))
  (names : list string).

Lemma simulates_bind (c : H unit) (f : unit → H unit) (σ' : store)
    (y : M extraction) (g : extraction → M extraction) :
  simulates σ (c σ') y →
  (∀ σ1 st, holds σ σ1 st → simulates σ (f tt σ1) (g st)) →
  simulates σ ((c ≫= f) σ') (y ≫= g).
Proof.
  intros [Hlog Hres] Hnext. unfold mbind, H_bind, M_bind.
  destruct (c σ') as [σ1 [l1 [e|[]]]], y as [lp [e'|st]];
    simpl in *; try (by subst).
  specialize (Hnext σ1 st Hres). destruct Hnext as [Hlog' Hres'].
  destruct (f tt σ1) as [σ2 [l2 r2]], (g st) as [l' r']; simpl in *.
  split; [by subst|done].
Qed.

(** The loop of lines 108-127. *)
Lemma extraction_simulates daily daily_units n vs : ∀ (σ' : store) st,
  holds σ σ' st →
  (∀ key v, assoc key daily = Some v → valid σ v) →
  valid σ daily_units →
  simulates σ
    (for_each_in vs
       (extract_variable_in daily daily_units n (length σ) (S (length σ)))
       σ')
    (for_each vs
       (extract_variable (decode_items σ daily) (decode σ daily_units) n)
       st).
Proof.
  induction vs as [|var vs IH]; intros σ' st Hholds Hdaily Hunits.
  { by split. }
  cbn [for_each_in for_each]. apply simulates_bind.
  - by apply extract_variable_simulates.
  - intros σ1 st1 Hholds1. by apply IH.
Qed.

Lemma str_items_names names : str_items (VStr <$> names) = names.
Proof.
  induction names as [|name names IH]; [done|].
  unfold str_items in *. rewrite fmap_cons. cbn [omap list_omap].
  by rewrite IH.
Qed.

(** The constructor reads from the store the columns of the pure
    [processed]. *)
Lemma run_read_columns (σ' : store) entries processed :
  take (length σ) σ' = σ →
  Forall2 (holds_column σ σ') entries processed →
  read_columns entries σ' = (σ', mret processed).
Proof.
  intros Htake Hall.
  induction Hall as [|[key v] [key' c] entries processed [Hkey Hc] _ IH].
  { done. }
  simpl in Hkey, Hc. subst key'. cbn [read_columns].
  assert (read_column (key, v) σ' = (σ', mret (key, c))) as Hcol.
  { unfold read_column. cbn [fst snd]. rewrite run_deref.
    destruct c as [l|j].
    - destruct Hc as (x & items & -> & _ & _ & -> & Hvalid & <-).
      rewrite run_read_list. by rewrite (read_extended σ).
    - destruct Hc as (s & -> & ->). rewrite run_read.
      by destruct (length σ'). }
  rewrite (run_bind _ _ _ _ _ Hcol), (run_bind _ _ _ _ _ IH). done.
Qed.

Lemma run_try_except_lift {A} (body : H A) (handler : exn → M A)
    (σ' σ1 : store) (m : M A) :
  body σ' = (σ1, m) →
  (try_except_in body (λ e, lift (handler e)) σ').2 = try_except m handler.
Proof.
  intros Hbody. unfold try_except_in, try_except, lift. rewrite Hbody.
  destruct m as [l [e|a]]; [|done]. by destruct (handler e).
Qed.

(** Lines 131-147. *)
Lemma build_frame_agrees (σ' : store) processed names :
  holds σ σ' (processed, names) →
  (build_frame_in (length σ) (S (length σ)) σ').2 =
    build_frame (processed, names).
Proof.
  intros (Htake & entries & Hp & Hnm & Hcols). cbn [fst snd] in *.
  unfold build_frame_in, build_frame.
  apply (run_try_except_lift _ _ σ' σ').
  rewrite run_deref, Hp, run_deref, Hnm.
  rewrite (run_bind _ _ _ _ _ (run_read_columns σ' _ _ Htake Hcols)).
  by rewrite str_items_names.
Qed.

(** Lines 104-147. *)
Lemma extract_and_build_agrees daily daily_units n dates c :
  (∀ key v, assoc key daily = Some v → valid σ v) →
  valid σ daily_units →
  dates_column σ dates c →
  (extract_and_build_in daily daily_units n dates σ).2 =
    extract_and_build (decode_items σ daily) (decode σ daily_units) n c.
Proof.
  intros Hdaily Hunits Hdates.
  unfold extract_and_build_in, extract_and_build.
  rewrite run_alloc, run_alloc.
  replace (length (σ ++ [ODict [("date", dates)]])) with (S (length σ))
    by (rewrite length_app; simpl; lia).
  set (σ0 := (σ ++ [ODict [("date", dates)]]) ++ [OList [VStr "date"]]).
  assert (holds σ σ0 ([("date", c)], ["date"])) as Hholds.
  { unfold σ0. split; [by rewrite <-app_assoc, take_app_length|].
    exists [("date", dates)]. cbn [fst snd].
    split; [by rewrite <-app_assoc, lookup_app_r, Nat.sub_diag by lia|].
    split.
    { rewrite lookup_app_r by (rewrite length_app; simpl; lia).
      rewrite length_app. simpl.
      by replace (S (length σ) - (length σ + 1)) with 0 by lia. }
    constructor; [|constructor]. split; [done|]. cbn [fst snd].
    destruct c as [l|j]; [|done].
    destruct Hdates as (t & items & -> & Ht & ->).
    pose proof (lookup_lt_Some _ _ _ Ht).
    exists t, items. split; [done|]. split; [lia|]. split; [lia|].
    split; [by rewrite <-app_assoc, lookup_app_l|].
    split; [by apply (valid_items σ Hord t)|done]. }
  pose proof (extraction_simulates daily daily_units n VARIABLES σ0 _
                Hholds Hdaily Hunits) as [Hlog Hres].
  unfold mbind at 1, H_bind at 1. unfold mbind at 3, M_bind at 1.
  destruct (for_each_in VARIABLES _ σ0) as [σ1 [l1 [e|[]]]],
    (for_each VARIABLES _ _) as [lp [e'|st]]; simpl in *; try (by subst).
  rewrite run_log. destruct st as [processed names].
  rewrite <-(build_frame_agrees σ1 processed names Hres).
  destruct (build_frame_in _ _ σ1) as [σ2 [l2 r2]]. simpl. by subst.
Qed.

End frame_in_store.

(** ** Agreement *)

(** Closes a branch on a value that is no reference. *)
Ltac scalar_branch :=
  match goal with
  | |- context [decode ?σ ?v] => rewrite (decode_scalar σ v) by done
  end;
  reflexivity.

Section transform_agrees.
Context `{R : Runtime}.
Context (σ : store) (Hord : ordered σ).

(** On a store as decoding JSON builds it, the transform on the store
    logs, raises and returns what the transform on the decoded payload
    does. *)
Theorem process_weather_data_in_agrees data :
  valid σ data →
  (process_weather_data_in data σ).2 = process_weather_data (decode σ data).
Proof.
  intros Hdata. unfold process_weather_data_in, process_weather_data.
  rewrite run_read. fold (decode σ data). rewrite run_log, log_bind, after_2.
  rewrite run_deref. cbn [app].
  destruct data as [| | | | |l];
    try scalar_branch.
  simpl in Hdata. destruct (σ !! l) as [[items|items]|] eqn:Hl.
  { rewrite (decode_list σ l items) by done. reflexivity. }
  2:{ apply lookup_ge_None in Hl. lia. }
  rewrite (decode_dict σ l items) by done. cbn beta iota.
  rewrite !lookup_decode_items.
  destruct (assoc "daily" items) as [daily_data|] eqn:Hdaily;
    [|reflexivity].
  destruct (assoc "daily_units" items) as [daily_units|] eqn:Hunits;
    [|reflexivity].
  cbn [fmap option_fmap option_map].
  pose proof (valid_item σ Hord l items _ _ Hl Hdaily) as Hvd.
  pose proof (valid_item σ Hord l items _ _ Hl Hunits) as Hvu.
  rewrite run_deref.
  destruct daily_data as [| | | | |ld];
    try scalar_branch.
  simpl in Hvd. destruct (σ !! ld) as [[daily|daily]|] eqn:Hld.
  { rewrite (decode_list σ ld daily) by done. reflexivity. }
  2:{ apply lookup_ge_None in Hld. lia. }
  rewrite (decode_dict σ ld daily) by done. cbn beta iota.
  rewrite run_read_dict. fold (decode σ). fold (decode_items σ daily).
  rewrite run_log, log_bind, after_2. cbn [app fst snd].
  rewrite run_read. fold (decode σ daily_units).
  rewrite run_log, log_bind, after_2. cbn [app fst snd].
  rewrite lookup_decode_items.
  destruct (assoc "time" daily) as [dates|] eqn:Htime; [|reflexivity].
  cbn [fmap option_fmap option_map].
  pose proof (valid_item σ Hord ld daily _ _ Hld Htime) as Hvt.
  assert (∀ key v, assoc key daily = Some v → valid σ v) as Hvalid.
  { intros key v. apply (valid_item σ Hord ld daily). exact Hld. }
  rewrite run_deref.
  destruct dates as [| | | |s|t];
    try scalar_branch.
  - rewrite (decode_scalar σ (VStr s)) by done. cbn [reify].
    rewrite run_log, log_bind, after_2. cbn [app fst snd].
    rewrite run_log, log_bind, after_2. cbn [app fst snd].
    rewrite (extract_and_build_agrees σ Hord _ _ _ _ (Scalar (JStr s)))
      by (done || by exists s).
    reflexivity.
  - simpl in Hvt. destruct (σ !! t) as [[titems|titems]|] eqn:Ht.
    3:{ apply lookup_ge_None in Ht. lia. }
    + rewrite (decode_list σ t titems) by done. cbn beta iota.
      rewrite length_fmap.
      rewrite run_log, log_bind, after_2. cbn [app fst snd].
      rewrite run_read_list. fold (decode σ).
      rewrite run_log, log_bind, after_2. cbn [app fst snd].
      rewrite fmap_take.
      rewrite (extract_and_build_agrees σ Hord _ _ _ _
                 (Array (decode σ <$> titems)))
        by (done || by exists t, titems).
      reflexivity.
    + rewrite (decode_dict σ t titems) by done. cbn beta iota.
      rewrite size_decode_items by apply (Hord t _ Ht).
      reflexivity.
Qed.

End transform_agrees.

(** The store of the scenario is one that decoding JSON builds, so the
    two transforms agree on it. *)
Lemma scenario_store_ordered : ordered scenario_store.
Proof.
  intros l o Hl.
  repeat (destruct l as [|l]; [injection Hl as <-; simpl|]); [..|done].
  all: try (split; [|by apply (bool_decide_unpack _)]).
  all: repeat constructor; simpl; lia.
Qed.

(** ** The payload after the call *)

Section payload_after_the_call.
Context `{R : Runtime}.

(** C10: the transform leaves the payload unmodified.  The store after
    the call is the store before it followed by new objects; so every
    object of the caller, the payload mapping, its [daily] and
    [daily_units] mappings and the lists within them among them, is at
    its location as it was, and the payload decodes to the value it
    decoded to before the call.  The call on the store is the transform:
    on a store as decoding JSON builds it, it logs, raises and returns
    what [process_weather_data] does on the decoded payload. *)
Theorem payload_unchanged σ data :
  (∃ fresh, (process_weather_data_in data σ).1 = σ ++ fresh)
  ∧ (∀ l o, σ !! l = Some o →
       (process_weather_data_in data σ).1 !! l = Some o)
  ∧ (closed σ → valid σ data →
     ∀ depth, reify depth (process_weather_data_in data σ).1 data =
                reify depth σ data)
  ∧ (ordered σ → valid σ data →
     (process_weather_data_in data σ).2 =
       process_weather_data (decode σ data)).
Proof.
  destruct (process_weather_data_in_extends σ data) as [fresh Hfresh].
  split; [by exists fresh|]. rewrite Hfresh. split; [|split].
  - intros l o Hl. by apply lookup_app_l_Some.
  - intros Hclosed Hvalid depth. by apply reify_app.
  - intros Hord Hvalid. by apply process_weather_data_in_agrees.
Qed.

End payload_after_the_call.

(** The scenario of the specification: its [daily] mapping and the
    decoded payload are what they were, and the call on the store is the
    transform of the decoded payload. *)
Lemma payload_unchanged_witness :
  (process_weather_data_in (VRef 4) scenario_store).1 !! 2 =
    Some (ODict [("time", VRef 0); ("temperature_2m_mean", VRef 1)])
  ∧ (∀ depth,
       reify depth (process_weather_data_in (VRef 4) scenario_store).1
         (VRef 4) = reify depth scenario_store (VRef 4))
  ∧ (process_weather_data_in (VRef 4) scenario_store).2 =
      process_weather_data (decode scenario_store (VRef 4)).
Proof.
  destruct (payload_unchanged scenario_store (VRef 4))
    as (_ & Hobject & Hvalue & Hagrees).
  split; [|split].
  - apply Hobject. reflexivity.
  - apply Hvalue.
    + repeat (constructor; simpl; try lia).
    + simpl. lia.
  - apply Hagrees; [apply scenario_store_ordered|]. simpl. lia.
Defined.

(** * The rest of the two modules, and more on the transform *)

#[local] Set Warnings "-clear-no-such-hyp".

(** ** When the transform raises *)

Section raising.
Context `{R : Runtime}.
Implicit Types (d daily units : gmap string json).

(** X1 ([process_weather_data], lines 74-147): the transform raises
    exactly on a mapping with [daily] and [daily_units] in which [daily]
    is not a mapping, or [time] is there and is neither a list nor a
    string, or [time] is a list or a string and [daily_units] is not a
    mapping.  On every other payload it returns, a table or [None]. *)
Theorem transform_raises_exactly data :
  (∃ e, result (process_weather_data data) = inl e) ↔
  ∃ d daily_data daily_units,
    data = JDict d
    ∧ d !! "daily" = Some daily_data
    ∧ d !! "daily_units" = Some daily_units
    ∧ unguarded daily_data daily_units = true.
Proof.
  split.
  - intros [e He]. destruct data as [| | | | |l|d]; try done.
    unfold process_weather_data in He. rewrite result_log in He.
    destruct (d !! "daily") as [daily_data|] eqn:Hd; [|done].
    destruct (d !! "daily_units") as [daily_units|] eqn:Hu; [|done].
    exists d, daily_data, daily_units. repeat split; try done.
    destruct daily_data as [| | | | | |daily]; try done.
    rewrite !result_log in He. unfold unguarded.
    destruct (daily !! "time") as [[| | | |s|l|m]|]; try done;
      rewrite !result_log in He;
      destruct daily_units as [| | | | | |units]; try done;
      rewrite extract_and_build_result in He by (by intros ? [= ->]);
      by destruct (converted _).
  - intros (d & daily_data & daily_units & -> & Hd & Hu & Hbad).
    unfold process_weather_data. rewrite result_log, Hd, Hu.
    destruct daily_data as [| | | | | |daily];
      try (by eexists). 
    rewrite !result_log. unfold unguarded in Hbad.
    destruct (daily !! "time") as [[| | | |s|l|m]|]; try done;
      rewrite ?result_log; try (by eexists).
    + exists AttributeError. rewrite ?result_log.
      apply extract_and_build_units_raise. by destruct (isinstance_dict _).
    + exists AttributeError. rewrite ?result_log.
      apply extract_and_build_units_raise. by destruct (isinstance_dict _).
Qed.

End raising.

(** ** What the transform reads *)

Section reads.
Context `{R : Runtime}.
Implicit Types (d daily units : gmap string json).

Lemma table_of_ext daily daily' units units' n ds :
  (∀ var, var ∈ VARIABLES →
     daily !! var = daily' !! var ∧ units !! var = units' !! var) →
  frame_of daily units n ds = frame_of daily' units' n ds.
Proof.
  intros Hsame. unfold frame_of. do 2 f_equal.
  apply Forall_fmap_ext_1, Forall_forall. intros var Hvar.
  destruct (Hsame var Hvar) as [Hv Hu].
  unfold column_name, extracted. by rewrite Hv, Hu.
Qed.

(** X2 ([process_weather_data], lines 86-127): of a response the
    transform reads [daily] and [daily_units], of [daily] it reads [time]
    and the configured variables, and of [daily_units] the configured
    variables: two responses that agree there give the same result. *)
Theorem transform_reads_configured_keys d d' daily daily' units units' :
  d !! "daily" = Some (JDict daily) →
  d !! "daily_units" = Some (JDict units) →
  d' !! "daily" = Some (JDict daily') →
  d' !! "daily_units" = Some (JDict units') →
  daily !! "time" = daily' !! "time" →
  (∀ var, var ∈ VARIABLES →
     daily !! var = daily' !! var ∧ units !! var = units' !! var) →
  result (process_weather_data (JDict d)) =
    result (process_weather_data (JDict d')).
Proof.
  intros Hd Hu Hd' Hu' Ht Hsame.
  destruct (daily !! "time") as [[| | | |s|l|m]|] eqn:Htime; symmetry in Ht.
  1-4,7,8: unfold process_weather_data;
    by rewrite !result_log, Hd, Hu, Hd', Hu', !result_log, Htime, Ht.
  - rewrite (process_str_result d daily units s),
      (process_str_result d' daily' units' s) by done.
    destruct (converted _); [|done].
    by rewrite (table_of_ext daily daily' units units').
  - rewrite (process_list_result d daily units l),
      (process_list_result d' daily' units' l) by done.
    destruct (to_datetime_column _); [|done].
    by rewrite (table_of_ext daily daily' units units').
Qed.

End reads.

(** The sample response, and the same with a variable that is not
    configured and the coordinates. *)
Lemma transform_reads_configured_keys_witness :
  result (process_weather_data (JDict (response_of full_daily full_units))) =
    result (process_weather_data (JDict wider_response)).
Proof.
  apply (transform_reads_configured_keys (R := sample_runtime)
           (response_of full_daily full_units) wider_response
           full_daily wider_daily full_units wider_units);
    try reflexivity.
  intros var Hvar.
  repeat (apply elem_of_cons in Hvar as [->|Hvar]; [split; reflexivity|]).
  by apply elem_of_nil in Hvar.
Defined.

(** ** The columns of a returned table *)

Section returned_columns.
Context `{R : Runtime}.
Implicit Types (d daily units : gmap string json).

Lemma stem_column_names units vs :
  Forall (λ v, stem v = v) vs → stem <$> (column_name units <$> vs) = vs.
Proof.
  induction 1 as [|v vs Hv _ IH]; [done|]. cbn [fmap list_fmap].
  unfold column_name at 1. rewrite stem_new_col_name by done.
  f_equal. exact IH.
Qed.

(** X3 ([process_weather_data], lines 104-132): whatever the payload
    and its units, a returned table has one column more than there are
    configured variables, no two columns of one name, [date] first, and
    after it the configured variables in their order, each name starting
    with the name of its variable. *)
Theorem returned_table_columns data t :
  result (process_weather_data data) = inr (Some t) →
  length (columns t) = S (length VARIABLES)
  ∧ NoDup (columns t).*1
  ∧ (columns t).*1 !! 0 = Some "date"
  ∧ stem <$> tail (columns t).*1 = VARIABLES.
Proof.
  intros Ht. apply process_returned_inv in Ht
    as (d & daily & units & n & dates & ds & _ & _ & _ & _ & _ & ->).
  split; [|rewrite columns_table_of_names; split; [|split]].
  - unfold frame_of. cbn [columns length]. by rewrite length_fmap.
  - apply NoDup_cons. split.
    + intros Hin. apply list_elem_of_fmap in Hin as (v & Hv & Hin).
      by destruct (column_name_not_date units v).
    + apply column_name_NoDup; [apply VARIABLES_stem|apply VARIABLES_NoDup].
  - done.
  - cbn [tail]. apply stem_column_names, VARIABLES_stem.
Qed.

End returned_columns.

(** The columns of the table of the sample response. *)
Lemma returned_table_columns_witness :
  length (columns (table_of full_daily full_units 2 two_dates))
    = S (length VARIABLES)
  ∧ NoDup (columns (table_of full_daily full_units 2 two_dates)).*1
  ∧ (columns (table_of full_daily full_units 2 two_dates)).*1 !! 0
      = Some "date"
  ∧ stem <$> tail (columns (table_of full_daily full_units 2 two_dates)).*1
      = VARIABLES.
Proof.
  apply (returned_table_columns (JDict (response_of full_daily full_units))).
  reflexivity.
Defined.

(** ** The order of the rows *)

Section row_order.
Context `{R : Runtime}.
Implicit Types (d daily units : gmap string json).

(** X4 ([process_weather_data], lines 100-139): the rows of a returned
    table are in the order of the response: at row [i] the date is what
    [pd.to_datetime] makes of the [i]-th element of [time] in the format
    of the column, and the cell of every well-formed variable is the
    [i]-th element of its list, coerced. *)
Theorem rows_keep_order d daily units dates t i v :
  d !! "daily" = Some (JDict daily) →
  d !! "daily_units" = Some (JDict units) →
  daily !! "time" = Some (JList dates) →
  result (process_weather_data (JDict d)) = inr (Some t) →
  dates !! i = Some v →
  (∃ c col, convert_cell (column_format (Obj <$> dates)) (Obj v) = Some c
            ∧ assoc "date" (columns t) = Some col
            ∧ col !! i = Some c)
  ∧ (∀ var l w,
       var ∈ VARIABLES →
       daily !! var = Some (JList l) → length l = length dates →
       l !! i = Some w →
       ∃ col, assoc (column_name units var) (columns t) = Some col
              ∧ col !! i = Some (Num (to_numeric_cell (Obj w)))).
Proof.
  intros Hd Hu Ht Hrun Hi.
  rewrite (process_list_result d daily units dates) in Hrun by done.
  unfold to_datetime_column in Hrun.
  destruct (converted (Obj <$> dates)) as [ds|] eqn:Hds; [|done].
  injection Hrun as <-. split.
  - assert ((Obj <$> dates : series) !! i = Some (Obj v)) as Hcell
      by by rewrite list_lookup_fmap, Hi.
    destruct (converted_lookup _ _ _ _ Hds Hcell) as (c & Hc & Hlook).
    by exists c, ds.
  - intros var l w Hvar Hl Hlen Hw.
    exists (numeric l). split.
    + by rewrite assoc_table_of, (extracted_present _ _ _ l).
    + by apply numeric_lookup.
Qed.

End row_order.

(** The second row of the table of the sample response. *)
Lemma rows_keep_order_witness :
  (∃ c col,
     convert_cell (column_format (Obj <$> two_days))
       (Obj (JStr "2024-01-02")) = Some c
     ∧ assoc "date" (columns (table_of full_daily full_units 2 two_dates))
       = Some col
     ∧ col !! 1 = Some c)
  ∧ (∀ var l w,
       var ∈ VARIABLES →
       full_daily !! var = Some (JList l) → length l = length two_days →
       l !! 1 = Some w →
       ∃ col, assoc (column_name full_units var)
                (columns (table_of full_daily full_units 2 two_dates))
              = Some col
              ∧ col !! 1 = Some (Num (to_numeric_cell (Obj w)))).
Proof.
  apply (rows_keep_order (R := sample_runtime)
           (response_of full_daily full_units) full_daily full_units
           two_days (table_of full_daily full_units 2 two_dates)
           1 (JStr "2024-01-02"));
    reflexivity.
Defined.

(** ** A [time] that is a string *)

Section string_time.
Context `{R : Runtime}.
Implicit Types (d daily units : gmap string json).

Lemma mapM_replicate {A B} (f : A → option B) n a b :
  f a = Some b → mapM f (replicate n a) = Some (replicate n b).
Proof.
  intros Hf. induction n as [|n IH]; [done|].
  cbn [replicate mapM]. rewrite Hf. cbn [mbind option_bind]. by rewrite IH.
Qed.

(** X5 ([process_weather_data], lines 100-139): a [time] that is a
    string, and not a list, is not refused: when the string converts to
    a date, the table has one row per character of the string, the same
    date on every row, and the column of every variable as for a list of
    that many dates. *)
Lemma first_non_null_replicate n (c : cell number datetime) :
  first_non_null (replicate (S n) c) = first_non_null [c].
Proof.
  cbn [replicate first_non_null].
  destruct (is_missing_date c) eqn:Hc; [|done].
  induction n as [|n IH]; [done|]. cbn [replicate first_non_null].
  by rewrite Hc.
Qed.

(** A column of copies of one value converts as the value does. *)
Lemma converted_replicate n (c : cell number datetime) x :
  to_datetime_cell c = Some x →
  converted (replicate n c) = Some (replicate n (Date x)).
Proof.
  intros Hx. destruct n as [|n]; [done|].
  unfold converted, column_format. rewrite first_non_null_replicate.
  apply mapM_replicate. unfold to_datetime_cell, column_format in Hx.
  destruct (convert_cell _ c) as [[| |dt|]|]; by simplify_eq.
Qed.

Theorem string_time_table d daily units s x :
  d !! "daily" = Some (JDict daily) →
  d !! "daily_units" = Some (JDict units) →
  daily !! "time" = Some (JStr s) →
  to_datetime_cell (Obj (JStr s)) = Some x →
  ∃ t, result (process_weather_data (JDict d)) = inr (Some t)
       ∧ nrows t = str_len s
       ∧ assoc "date" (columns t) = Some (replicate (str_len s) (Date x))
       ∧ ∀ var, var ∈ VARIABLES →
           assoc (column_name units var) (columns t) =
             Some (numeric (extracted daily (str_len s) var)).
Proof.
  intros Hd Hu Ht Hx.
  rewrite (process_str_result d daily units s) by done.
  rewrite (converted_replicate _ _ x) by done.
  eexists. split; [done|]. split; [done|]. split; [done|].
  intros var Hvar. by apply assoc_table_of.
Qed.

End string_time.

(** One date as [time]: ten characters, ten rows. *)
Lemma string_time_table_witness :
  ∃ t, result (process_weather_data
                 (JDict (response_of string_time_daily one_unit)))
         = inr (Some t)
       ∧ nrows t = 10
       ∧ assoc "date" (columns t) = Some (replicate 10 (Date "2024-01-01"))
       ∧ ∀ var, var ∈ VARIABLES →
           assoc (column_name one_unit var) (columns t) =
             Some (numeric (extracted string_time_daily 10 var)).
Proof.
  apply (string_time_table (R := sample_runtime)
           (response_of string_time_daily one_unit)
           string_time_daily one_unit "2024-01-01" "2024-01-01");
    reflexivity.
Defined.

(** ** What the console and the log file show of a transform *)

Section console.
Context `{R : Runtime}.
Implicit Types (d daily units : gmap string json) (n : nat).

Lemma emitted_app h (l l' : list record) :
  emitted h (l ++ l') = emitted h l ++ emitted h l'.
Proof. apply List.filter_app. Qed.

Lemma emitted_file (l : list record) : emitted file_handler_fc l = l.
Proof.
  induction l as [|[lv m] l IH]; [done|].
  unfold emitted in *. cbn [List.filter]. rewrite IH. by destruct lv.
Qed.

Lemma logged_try_except {A} (body : M A) (handler : exn → M A) :
  logged (try_except body handler) =
    match result body with
    | inl e => logged body ++ logged (handler e)
    | inr _ => logged body
    end.
Proof.
  destruct body as [l [e|a]]; [|done].
  unfold logged, result. simpl. by destruct (handler e).
Qed.

Lemma console_extract_variable daily units n st var :
  emitted console_handler_fc
    (logged (extract_variable daily (JDict units) n st var)) =
  [variable_record daily units n var].
Proof.
  destruct st as [processed names].
  unfold extract_variable, variable_record, column_name. simpl.
  destruct (daily !! var) as [[| | | | |l|]|]; try done.
  by destruct (length l =? n).
Qed.

Lemma console_extract_loop daily units n vs : ∀ st,
  emitted console_handler_fc
    (logged (for_each vs (extract_variable daily (JDict units) n) st)) =
  variable_record daily units n <$> vs.
Proof.
  induction vs as [|var vs IH]; intros [processed names]; [done|].
  cbn [for_each]. rewrite logged_bind, extract_variable_result.
  by rewrite emitted_app, console_extract_variable, IH.
Qed.

Lemma logged_coerce_loop names : ∀ df,
  logged (for_each names coerce_column df) = [].
Proof.
  induction names as [|name names IH]; intros df; [done|].
  cbn [for_each]. rewrite logged_bind.
  assert (logged (coerce_column df name) = []) as ->.
  { unfold coerce_column, df_getitem.
    destruct (negb _); [|done]. by destruct (assoc name (columns df)). }
  destruct (result (coerce_column df name)); [done|]. apply IH.
Qed.

Lemma logged_pd_DataFrame (p : list (string * column_data)) :
  logged (pd_DataFrame p) = [].
Proof.
  unfold pd_DataFrame. destruct (omap _ p) as [|m ms]; [done|].
  by destruct (forallb _ ms).
Qed.

Lemma logged_df_getitem df name : logged (df_getitem df name) = [].
Proof. unfold df_getitem. by destruct (assoc name (columns df)). Qed.

Lemma logged_pd_to_datetime (s : series) : logged (pd_to_datetime s) = [].
Proof. unfold pd_to_datetime. by destruct (mapM _ s). Qed.

(** The body of the [try] logs nothing before the frame is complete. *)
Lemma console_assemble processed names :
  match result (assemble processed names) with
  | inl _ => logged (assemble processed names) = []
  | inr (Some _) =>
      emitted console_handler_fc (logged (assemble processed names)) =
        [(INFO, FrameCreated)]
  | inr None => False
  end.
Proof.
  unfold assemble.
  rewrite result_bind, logged_bind, logged_pd_DataFrame.
  destruct (result (pd_DataFrame processed)) as [e|df1]; [done|].
  rewrite result_bind, logged_bind, logged_coerce_loop.
  destruct (result (for_each names coerce_column df1)) as [e|df2]; [done|].
  rewrite result_bind, logged_bind, logged_df_getitem.
  destruct (result (df_getitem df2 "date")) as [e|s]; [done|].
  rewrite result_bind, logged_bind, logged_pd_to_datetime.
  by destruct (result (pd_to_datetime s)) as [e|ds].
Qed.

(** The [try] of lines 131-147 ends in one record of the console. *)
Lemma console_build_frame st :
  ∃ last, emitted console_handler_fc (logged (build_frame st)) = [last]
    ∧ match result (build_frame st) with
      | inr (Some _) => last = (INFO, FrameCreated)
      | _ => ∃ e, last = (ERROR, FrameError e)
      end.
Proof.
  destruct st as [processed names]. unfold build_frame.
  rewrite logged_try_except, result_try_except.
  pose proof (console_assemble processed names) as Hrun.
  destruct (result (assemble processed names)) as [e|[t|]]; [| |done].
  - rewrite Hrun. exists (ERROR, FrameError e). split; [done|by exists e].
  - by exists (INFO, FrameCreated).
Qed.

Lemma logged_log {A} lv m (k : M A) :
  logged (log lv m;; k) = (lv, m) :: logged k.
Proof. by rewrite logged_bind. Qed.

(** Lines 104-147 on the console: one record per variable, the end of
    the extraction, and the record on which the [try] ends. *)
Lemma console_extract_and_build daily units n dates :
  ∃ last,
    emitted console_handler_fc
      (logged (extract_and_build daily (JDict units) n dates)) =
      (variable_record daily units n <$> VARIABLES)
        ++ [(INFO, FinishedExtraction); last]
    ∧ match result (extract_and_build daily (JDict units) n dates) with
      | inr (Some _) => last = (INFO, FrameCreated)
      | _ => ∃ e, last = (ERROR, FrameError e)
      end.
Proof.
  unfold extract_and_build. rewrite result_bind, logged_bind.
  destruct (result (for_each VARIABLES _ _)) as [e|st] eqn:Hloop.
  { rewrite extract_loop in Hloop;
      [done|apply VARIABLES_stem|apply VARIABLES_NoDup|].
    intros k Hk. simpl in Hk. apply list_elem_of_singleton in Hk as ->.
    apply VARIABLES_not_date. }
  rewrite result_log, logged_log.
  destruct (console_build_frame st) as (last & Hlast & Hresult).
  exists last. split; [|done].
  rewrite emitted_app, console_extract_loop.
  change (emitted console_handler_fc
            ((INFO, FinishedExtraction) :: logged (build_frame st)))
    with ((INFO, FinishedExtraction)
            :: emitted console_handler_fc (logged (build_frame st))).
  by rewrite Hlast.
Qed.

Lemma logged_process_list d daily units dates :
  d !! "daily" = Some (JDict daily) →
  d !! "daily_units" = Some (JDict units) →
  daily !! "time" = Some (JList dates) →
  logged (process_weather_data (JDict d)) =
    [(DEBUG, RawType Dict); (DEBUG, KeysInDaily daily);
     (DEBUG, FoundUnits (JDict units));
     (INFO, ProcessingDays (length dates));
     (DEBUG, FirstDates (JList (take 5 dates)))]
    ++ logged (extract_and_build daily (JDict units) (length dates)
                 (Array dates)).
Proof.
  intros Hd Hu Ht. unfold process_weather_data.
  by rewrite logged_log, Hd, Hu, !logged_log, Ht, !logged_log.
Qed.

Lemma logged_process_str d daily units s :
  d !! "daily" = Some (JDict daily) →
  d !! "daily_units" = Some (JDict units) →
  daily !! "time" = Some (JStr s) →
  logged (process_weather_data (JDict d)) =
    [(DEBUG, RawType Dict); (DEBUG, KeysInDaily daily);
     (DEBUG, FoundUnits (JDict units));
     (INFO, ProcessingDays (str_len s));
     (DEBUG, FirstDates (JStr (str_prefix 5 s)))]
    ++ logged (extract_and_build daily (JDict units) (str_len s)
                 (Scalar (JStr s))).
Proof.
  intros Hd Hu Ht. unfold process_weather_data.
  by rewrite logged_log, Hd, Hu, !logged_log, Ht, !logged_log.
Qed.

(** X6 (logging setup and [process_weather_data], lines 32-50 and
    74-147): the log file gets every record of the transform.  On a
    response whose [daily] and [daily_units] are mappings and whose
    [time] is a list, the console shows the number of days, then one
    record per configured variable in order (a warning when it is
    absent, an error when it is malformed, an information otherwise),
    then the end of the extraction, and last the creation of the frame
    when a table is returned, an error otherwise. *)
Theorem console_of_transform d daily units dates :
  d !! "daily" = Some (JDict daily) →
  d !! "daily_units" = Some (JDict units) →
  daily !! "time" = Some (JList dates) →
  emitted file_handler_fc (logged (process_weather_data (JDict d))) =
    logged (process_weather_data (JDict d))
  ∧ ∃ last,
      emitted console_handler_fc (logged (process_weather_data (JDict d))) =
        (INFO, ProcessingDays (length dates))
          :: (variable_record daily units (length dates) <$> VARIABLES)
          ++ [(INFO, FinishedExtraction); last]
      ∧ match result (process_weather_data (JDict d)) with
        | inr (Some _) => last = (INFO, FrameCreated)
        | _ => ∃ e, last = (ERROR, FrameError e)
        end.
Proof.
  intros Hd Hu Ht. split; [apply emitted_file|].
  rewrite (logged_process_list d daily units dates) by done.
  assert (result (process_weather_data (JDict d)) =
          result (extract_and_build daily (JDict units) (length dates)
                    (Array dates))) as ->.
  { unfold process_weather_data.
    by rewrite result_log, Hd, Hu, !result_log, Ht, !result_log. }
  destruct (console_extract_and_build daily units (length dates)
              (Array dates)) as (last & Hlast & Hresult).
  exists last. split; [|done]. by rewrite emitted_app, Hlast.
Qed.

(** X16 ([process_weather_data], lines 80-98 and 145-147): the transform
    never returns [None] in silence: whenever it returns [None], the
    console shows a record of level [ERROR]. *)
Theorem None_is_reported data :
  result (process_weather_data data) = inr None →
  ∃ m, (ERROR, m)
         ∈ emitted console_handler_fc (logged (process_weather_data data)).
Proof.
  intros Hnone. destruct data as [| | | | |l|d].
  1-6: by eexists; left.
  unfold process_weather_data in Hnone. rewrite result_log in Hnone.
  assert (∀ daily units n dates prefix,
            result (extract_and_build daily (JDict units) n dates) = inr None →
            ∃ m, (ERROR, m)
                   ∈ emitted console_handler_fc
                       (prefix
                          ++ logged (extract_and_build daily (JDict units) n
                                       dates))) as Hbuild.
  { intros daily units n dates prefix Hrun.
    destruct (console_extract_and_build daily units n dates)
      as (last & Hlast & Hresult).
    rewrite Hrun in Hresult. destruct Hresult as [e ->]. exists (FrameError e).
    rewrite emitted_app, Hlast, !elem_of_app. right. right. right. left. }
  destruct (d !! "daily") as [daily_data|] eqn:Hd.
  2:{ exists MissingDailyKeys. unfold process_weather_data.
      rewrite logged_log, Hd. left. }
  destruct (d !! "daily_units") as [daily_units|] eqn:Hu.
  2:{ exists MissingDailyKeys. unfold process_weather_data.
      rewrite logged_log, Hd, Hu. left. }
  destruct daily_data as [| | | | | |daily]; try done.
  rewrite !result_log in Hnone.
  destruct (daily !! "time") as [[| | | |s|l|m]|] eqn:Ht; try done.
  - rewrite !result_log in Hnone.
    destruct daily_units as [| | | | | |units]; try done.
    rewrite (logged_process_str d daily units s) by done. by apply Hbuild.
  - rewrite !result_log in Hnone.
    destruct daily_units as [| | | | | |units]; try done.
    rewrite (logged_process_list d daily units l) by done. by apply Hbuild.
  - exists MissingTime. unfold process_weather_data.
    rewrite logged_log, Hd, Hu, !logged_log, Ht. left.
Qed.

End console.

(** The scenario of the specification: one information and seven
    warnings between the number of days and the end of the extraction. *)
Lemma console_of_transform_witness :
  emitted file_handler_fc
    (logged (process_weather_data
               (JDict (response_of one_variable_daily one_unit)))) =
    logged (process_weather_data
              (JDict (response_of one_variable_daily one_unit)))
  ∧ ∃ last,
      emitted console_handler_fc
        (logged (process_weather_data
                   (JDict (response_of one_variable_daily one_unit)))) =
        (INFO, ProcessingDays 2)
          :: (variable_record one_variable_daily one_unit 2 <$> VARIABLES)
          ++ [(INFO, FinishedExtraction); last]
      ∧ match result (process_weather_data
                        (JDict (response_of one_variable_daily one_unit)))
        with
        | inr (Some _) => last = (INFO, FrameCreated)
        | _ => ∃ e, last = (ERROR, FrameError e)
        end.
Proof.
  apply (console_of_transform (R := sample_runtime)
           (response_of one_variable_daily one_unit)
           one_variable_daily one_unit two_days);
    reflexivity.
Defined.

(** A date that does not parse: the error of the frame. *)
Lemma None_is_reported_witness :
  ∃ m, (ERROR, m)
         ∈ emitted console_handler_fc
             (logged (process_weather_data
                        (JDict (response_of unparseable_daily ∅)))).
Proof.
  apply (None_is_reported (R := sample_runtime)
           (JDict (response_of unparseable_daily ∅))).
  reflexivity.
Defined.

(** ** The call of the transform by [fetch_and_process_forecast] *)

Section fetch_and_process.
Context `{R : Runtime}.
Implicit Types (d daily units : gmap string json).

(** A payload that line 183 takes for no payload is one on which the
    transform returns [None]. *)
Lemma falsy_payload_result payload :
  truthy payload = false → result (process_weather_data payload) = inr None.
Proof.
  destruct payload as [| | | | | |m]; try done.
  cbn [truthy]. intros Hsize%negb_false_iff%Nat.eqb_eq.
  apply map_size_empty_iff in Hsize as ->. reflexivity.
Qed.

Lemma fetch_and_process_result payload :
  result (fetch_and_process_forecast (Decoded payload)) =
    result (process_weather_data payload).
Proof.
  unfold fetch_and_process_forecast, fetch_forecast_weather.
  rewrite result_log, result_bind, !result_log, result_ret.
  destruct (truthy payload) eqn:Htruthy; [done|].
  by rewrite falsy_payload_result.
Qed.

(** X7 ([fetch_and_process_forecast], lines 179-188): for every decoded
    payload the call returns or raises what the transform does on that
    payload, also when line 183 takes the payload for no payload and
    skips the transform; its log is the three records of the fetch, then
    the log of the transform, or the record of the failure when the
    transform was skipped. *)
Theorem truth_test_keeps_result payload :
  result (fetch_and_process_forecast (Decoded payload)) =
    result (process_weather_data payload)
  ∧ logged (fetch_and_process_forecast (Decoded payload)) =
      [(INFO, Executing); (INFO, Fetching FORECAST_API_URL); (INFO, Fetched)]
        ++ (if truthy payload then logged (process_weather_data payload)
            else [(ERROR, FetchFailed)]).
Proof.
  split; [apply fetch_and_process_result|].
  unfold fetch_and_process_forecast, fetch_forecast_weather.
  rewrite !logged_bind. cbn [result log snd logged fst].
  rewrite !result_log, result_ret.
  destruct (truthy payload); reflexivity.
Qed.

End fetch_and_process.

(** ** The endpoint on a response *)

Section endpoint_on_response.
Context `{R : Runtime}.
Implicit Types (d daily units : gmap string json).

(** X8 ([weather], lines 10-15, and [fetch_forecast_weather], lines
    58-66): the view raises exactly what [response.json()] raises past
    the handlers of the fetch, what the transform raises on the decoded
    payload, and what [jsonify] raises on row 0 of a returned table that
    has a row; [iloc[0]] itself never raises, being behind the test of
    [len(df)]. *)
Theorem weather_raises_exactly x e :
  result (weather x) = inl e ↔
    x = Uncaught e
    ∨ ∃ payload, x = Decoded payload
        ∧ (result (process_weather_data payload) = inl e
           ∨ ∃ t fields,
               result (process_weather_data payload) = inr (Some t)
               ∧ 0 < nrows t
               ∧ Forall2 (λ f kv, f.1 = kv.1 ∧ kv.2 !! 0 = Some f.2)
                   fields (columns t)
               ∧ jsonify_raises fields = Some e).
Proof.
  rewrite weather_result. destruct x as [| |readable|e'|payload].
  - split; [done|]. by intros [?|(? & ? & _)].
  - split; [done|]. by intros [?|(? & ? & _)].
  - destruct readable; (split; [done|]); by intros [?|(? & ? & _)].
  - split.
    + intros [= ->]. by left.
    + by intros [[= ->]|(? & ? & _)].
  - rewrite fetch_and_process_result.
    destruct (result (process_weather_data payload)) as [e'|[t|]] eqn:Hrun.
    + split.
      * intros [= ->]. right. exists payload. split; [done|]. by left.
      * intros [?|(? & [= <-] & [Hp|(? & ? & Hp & _)])]; [done| |];
          rewrite Hrun in Hp; congruence.
    + destruct (Nat.ltb_spec 0 (nrows t)) as [Hrows|Hrows].
      * pose proof (iloc0_fields t
                      (returned_columns_nonempty _ _ Hrun Hrows)) as Hfields.
        split.
        -- destruct (jsonify_raises (iloc0 t)) eqn:Hjson; [|done].
           intros [= ->]. right. exists payload. split; [done|]. right.
           by exists t, (iloc0 t).
        -- intros [?|(? & [= <-] & [Hp|(t' & fields & Hp & _ & Hf & Hjson)])];
             [done|rewrite Hrun in Hp; congruence|].
           rewrite Hrun in Hp. injection Hp as <-.
           apply fields_iloc0 in Hf as ->. by rewrite Hjson.
      * split; [done|].
        intros [?|(? & [= <-] & [Hp|(t' & fields & Hp & ? & _)])];
          [done|rewrite Hrun in Hp; congruence|].
        rewrite Hrun in Hp. injection Hp as <-. lia.
    + split; [done|].
      intros [?|(? & [= <-] & [Hp|(? & ? & Hp & _)])]; [done| |];
        rewrite Hrun in Hp; congruence.
Qed.

Lemma iloc0_variables daily units n (vs : list string) :
  omap (λ kv : string * series, pair kv.1 <$> head kv.2)
    ((λ var, (column_name units var, numeric (extracted daily (S n) var)))
       <$> vs) =
  first_field daily units (S n) <$> vs.
Proof.
  induction vs as [|var vs IH]; [done|].
  cbn [fmap list_fmap omap list_omap]. cbn [fmap list_fmap] in IH.
  rewrite IH. pose proof (length_extracted daily (S n) var) as Hlen.
  destruct (extracted daily (S n) var) as [|a l] eqn:Hvar; [done|].
  unfold first_field. by rewrite Hvar.
Qed.

(** X9 ([weather], lines 12-14): for a response whose [time] is a list
    that [pd.to_datetime] converts as one column, the first cell of which
    is [c], row 0 has [date] as [c] and, for every configured variable in
    order, its column name with its first value coerced, the missing value
    when the variable is absent or malformed; the endpoint answers 200
    with that row when [jsonify] accepts it, and raises what [jsonify]
    raises when it does not. *)
Theorem weather_first_day d daily units v dates c col :
  d !! "daily" = Some (JDict daily) →
  d !! "daily_units" = Some (JDict units) →
  daily !! "time" = Some (JList (v :: dates)) →
  to_datetime_column (v :: dates) = Some (c :: col) →
  result (weather (Decoded (JDict d))) =
    match jsonify_raises (first_fields daily units (S (length dates)) c) with
    | Some e => inl e
    | None =>
        inr (Row (first_fields daily units (S (length dates)) c), 200)
    end.
Proof.
  intros Hd Hu Ht Hds.
  rewrite weather_result, fetch_and_process_result.
  rewrite (process_list_result d daily units (v :: dates)), Hds by done.
  unfold iloc0, frame_of, first_fields. cbn [nrows columns length].
  cbn [Nat.ltb Nat.leb].
  cbn [omap list_omap fmap list_fmap head fst snd option_fmap option_map].
  by rewrite iloc0_variables.
Qed.

(** X10 ([process_weather_data] and [weather], lines 100-144 and
    13-15): on an empty [time] list the transform returns a table, of no
    row, and the endpoint answers 500 with [error: No data]. *)
Theorem weather_no_day d daily units :
  d !! "daily" = Some (JDict daily) →
  d !! "daily_units" = Some (JDict units) →
  daily !! "time" = Some (JList []) →
  result (process_weather_data (JDict d)) =
    inr (Some (table_of daily units 0 []))
  ∧ result (weather (Decoded (JDict d))) =
      inr (Object [("error", "No data")], 500).
Proof.
  intros Hd Hu Ht.
  assert (result (process_weather_data (JDict d)) =
            inr (Some (table_of daily units 0 []))) as Hrun
    by by rewrite (process_list_result d daily units []).
  split; [done|].
  by rewrite weather_result, fetch_and_process_result, Hrun.
Qed.

End endpoint_on_response.

(** The first day of the sample response, and a day without a date, on
    which the [jsonify] of the sample raises. *)
Lemma weather_first_day_witness :
  result (weather (Decoded (JDict (response_of full_daily full_units)))) =
    inr (Row (first_fields full_daily full_units 2 (Date "2024-01-01")), 200)
  ∧ result (weather (Decoded (JDict (response_of no_date_daily ∅)))) =
      inl ValueError.
Proof.
  split.
  - apply (weather_first_day (R := sample_runtime)
             (response_of full_daily full_units) full_daily full_units
             (JStr "2024-01-01") [JStr "2024-01-02"]
             (Date "2024-01-01") [Date "2024-01-02"]);
      reflexivity.
  - apply (weather_first_day (R := sample_runtime)
             (response_of no_date_daily ∅) no_date_daily ∅
             JNull [] NaT []);
      reflexivity.
Defined.

(** A response without days. *)
Lemma weather_no_day_witness :
  result (process_weather_data (JDict (response_of no_day_daily ∅))) =
    inr (Some (table_of no_day_daily ∅ 0 []))
  ∧ result (weather (Decoded (JDict (response_of no_day_daily ∅)))) =
      inr (Object [("error", "No data")], 500).
Proof.
  apply (weather_no_day (R := sample_runtime)
           (response_of no_day_daily ∅) no_day_daily ∅);
    reflexivity.
Defined.

(** ** Saving the table *)

Section saving.
Context `{R : Runtime} `{Ho : Host}.

(** X11 ([save_output_files], lines 149-176): the call raises exactly
    when it is given a table and [to_csv] raises an exception that is
    not an [IOError], and it raises that exception; whatever lines
    167-168 raise is caught. *)
Theorem save_output_files_raises_exactly csv json df csv_filename
    json_filename e :
  outcome (save_output_files csv json df csv_filename json_filename) = inl e
  ↔ is_Some df ∧ csv = OtherError e.
Proof. destruct df, csv, json; cbn; naive_solver. Qed.

(** X12 ([save_output_files], lines 151-171): [to_csv] is called exactly
    when a table is given, with the file name joined to the directory of
    the script; lines 167-168 then run, with the JSON file name joined to
    the same directory, exactly when [to_csv] returned or raised
    [IOError]: a CSV file that cannot be written does not keep the JSON
    file from being written, an exception of another class does. *)
Theorem writers_run_exactly csv json df csv_filename json_filename path :
  (ToCsv path
     ∈ events (save_output_files csv json df csv_filename json_filename)
   ↔ is_Some df ∧ path = os_path_join save_directory csv_filename)
  ∧ (ToJson path
       ∈ events (save_output_files csv json df csv_filename json_filename)
     ↔ is_Some df ∧ (∀ e, csv ≠ OtherError e)
       ∧ path = os_path_join save_directory json_filename).
Proof.
  destruct df, csv, json; cbn; rewrite ?elem_of_cons, ?elem_of_nil;
    naive_solver.
Qed.

End saving.

(** ** The script *)

Section the_script.
Context `{R : Runtime} `{Ho : Host}.

(** The address of line 10 is not the placeholder that line 194 looks
    for, so the script always goes on to fetch. *)
Lemma main_fetches x csv json :
  main x csv json =
    (emit (Noted INFO RunningDirectly);;
     (forecast_df ← call (fetch_and_process_forecast x);
      match forecast_df with
      | Some df =>
          save_output_files csv json (Some df) OUTPUT_CSV_FILE_FORECAST
            OUTPUT_JSON_FILE_FORECAST;;
          emit (Noted INFO (TestFilesSaved (nrows df) (length (columns df))))
      | None => emit (Noted ERROR ScriptFailed)
      end);;
     emit (Noted INFO ScriptFinished)).
Proof. reflexivity. Qed.

Lemma outcome_main x csv json :
  outcome (main x csv json) =
    match result (fetch_and_process_forecast x) with
    | inl e => inl e
    | inr (Some _) =>
        match csv with
        | OtherError e => inl e
        | _ => inr tt
        end
    | inr None => inr tt
    end.
Proof.
  rewrite main_fetches. unfold result.
  destruct (fetch_and_process_forecast x) as [l [e|[t|]]]; try done.
  by destruct csv, json.
Qed.

Lemma events_main x csv json :
  events (main x csv json) =
    Noted INFO RunningDirectly
      :: (Logged <$> logged (fetch_and_process_forecast x))
      ++ match result (fetch_and_process_forecast x) with
         | inl _ => []
         | inr (Some t) =>
             events (save_output_files csv json (Some t)
                       OUTPUT_CSV_FILE_FORECAST OUTPUT_JSON_FILE_FORECAST)
             ++ match csv with
                | OtherError _ => []
                | _ => [Noted INFO
                          (TestFilesSaved (nrows t) (length (columns t)));
                        Noted INFO ScriptFinished]
                end
         | inr None => [Noted ERROR ScriptFailed; Noted INFO ScriptFinished]
         end.
Proof.
  rewrite main_fetches. unfold result, logged.
  destruct (fetch_and_process_forecast x) as [l [e|[t|]]]; cbn.
  - by rewrite app_nil_r.
  - destruct csv, json; cbn; by rewrite <-?app_assoc.
  - by rewrite <-app_assoc.
Qed.

Lemma not_elem_of_Logged ev (l : list record) :
  (∀ r, ev ≠ Logged r) → ev ∉ Logged <$> l.
Proof. intros Hev (r & -> & _)%list_elem_of_fmap. by destruct (Hev r). Qed.

Lemma fetch_and_process_raises x e :
  result (fetch_and_process_forecast x) = inl e ↔
  x = Uncaught e
  ∨ ∃ payload, x = Decoded payload
               ∧ result (process_weather_data payload) = inl e.
Proof.
  destruct x as [| |readable|e'|payload].
  - split; [done|]. by intros [?|(? & ? & _)].
  - split; [done|]. by intros [?|(? & ? & _)].
  - destruct readable; (split; [done|]); by intros [?|(? & ? & _)].
  - split.
    + intros [= ->]. by left.
    + by intros [[= ->]|(? & ? & _)].
  - rewrite fetch_and_process_result. split.
    + intros Hrun. right. by exists payload.
    + by intros [?|(? & [= <-] & ?)].
Qed.

(** X13 (the script, lines 191-206): once the module is loaded, the
    lines of the script raise exactly when [response.json()] raises past
    the handlers of the fetch, or the transform raises on the decoded
    payload, or a table was returned and [to_csv] raises an exception
    that is not an [IOError]; and they raise that exception. *)
Theorem script_raises_exactly x csv json e :
  outcome (main x csv json) = inl e ↔
    x = Uncaught e
    ∨ (∃ payload, x = Decoded payload
                  ∧ result (process_weather_data payload) = inl e)
    ∨ ((∃ t, result (fetch_and_process_forecast x) = inr (Some t))
       ∧ csv = OtherError e).
Proof.
  rewrite outcome_main.
  pose proof (fetch_and_process_raises x e) as Hraises.
  destruct (result (fetch_and_process_forecast x)) as [e'|[t|]];
    [|destruct csv|]; naive_solver.
Qed.

(** X14 (the script, lines 200-202): the script calls [to_csv]
    exactly when fetch-and-transform returned a table, of any number of
    rows, and then with [OUTPUT_CSV_FILE_FORECAST] joined to the
    directory of the script; it runs lines 167-168, with
    [OUTPUT_JSON_FILE_FORECAST] joined to that directory, exactly when
    moreover [to_csv] returned or raised [IOError]. *)
Theorem script_writes_exactly x csv json path :
  (ToCsv path ∈ events (main x csv json) ↔
     (∃ t, result (fetch_and_process_forecast x) = inr (Some t))
     ∧ path = os_path_join save_directory OUTPUT_CSV_FILE_FORECAST)
  ∧ (ToJson path ∈ events (main x csv json) ↔
       (∃ t, result (fetch_and_process_forecast x) = inr (Some t))
       ∧ (∀ e, csv ≠ OtherError e)
       ∧ path = os_path_join save_directory OUTPUT_JSON_FILE_FORECAST).
Proof.
  rewrite events_main, !elem_of_cons, !elem_of_app.
  assert (ToCsv path ∉ Logged <$> logged (fetch_and_process_forecast x))
    as Hcsv by by apply not_elem_of_Logged.
  assert (ToJson path ∉ Logged <$> logged (fetch_and_process_forecast x))
    as Hjson by by apply not_elem_of_Logged.
  destruct (result (fetch_and_process_forecast x)) as [e'|[t|]].
  - rewrite !elem_of_nil. naive_solver.
  - split.
    + destruct csv, json; cbn; rewrite !elem_of_cons, elem_of_nil;
        naive_solver.
    + destruct csv as [| |e'], json; cbn; rewrite !elem_of_cons, elem_of_nil;
        try naive_solver.
      all: split; [naive_solver|intros (_ & Hcsv' & _); by destruct (Hcsv' e')].
  - rewrite !elem_of_cons, !elem_of_nil. naive_solver.
Qed.

(** X15 (the script, lines 200-203): when a table was returned and
    neither file could be written, [to_csv] raising [IOError] and lines
    167-168 an exception, the script still logs that the test files were
    saved, and logs for no path that the CSV or the JSON file was
    saved. *)
Theorem script_reports_saved_files x t json :
  result (fetch_and_process_forecast x) = inr (Some t) →
  json ≠ Written →
  Noted INFO (TestFilesSaved (nrows t) (length (columns t)))
    ∈ events (main x IOError json)
  ∧ (∀ path, (Noted INFO (CsvSaved path) ∉ events (main x IOError json))
             ∧ (Noted INFO (JsonSaved path) ∉ events (main x IOError json))).
Proof.
  intros Hx Hjson. rewrite events_main, Hx.
  assert (∀ m, Noted INFO m
               ∉ Logged <$> logged (fetch_and_process_forecast x)) as Hlog
    by (intros m; by apply not_elem_of_Logged).
  split; [|intros path; split].
  - right. apply elem_of_app. right. apply elem_of_app. right. left.
  - rewrite elem_of_cons, !elem_of_app. pose proof (Hlog (CsvSaved path)).
    destruct json; cbn; rewrite !elem_of_cons, elem_of_nil; naive_solver.
  - rewrite elem_of_cons, !elem_of_app. pose proof (Hlog (JsonSaved path)).
    destruct json; cbn; rewrite !elem_of_cons, elem_of_nil; naive_solver.
Qed.

End the_script.

(** The sample response on a disk that cannot be written. *)
Lemma script_reports_saved_files_witness :
  Noted INFO (TestFilesSaved 2 9)
    ∈ events (main (Decoded (JDict (response_of full_daily full_units)))
                IOError IOError)
  ∧ (∀ path,
       (Noted INFO (CsvSaved path)
          ∉ events (main (Decoded (JDict (response_of full_daily full_units)))
                      IOError IOError))
       ∧ (Noted INFO (JsonSaved path)
            ∉ events (main (Decoded (JDict (response_of full_daily full_units)))
                        IOError IOError))).
Proof.
  apply (script_reports_saved_files (R := sample_runtime) (Ho := sample_host)
           (Decoded (JDict (response_of full_daily full_units)))
           (table_of full_daily full_units 2 two_dates) IOError).
  - reflexivity.
  - discriminate.
Defined.
